(** * batteryMonitor.py: the alerting state machine and the monitor loop

    A shallow embedding of [BatteryMonitor] (src/batteryMonitor.py).

    - Battery percentages and [time.time()] readings are Python floats; every
      finite float is a rational, so both are embedded in [Q], with [<], [>]
      and [==] read as the rational comparisons and the one subtraction
      [current_time - self.last_alert_time] read as exact.  Python rounds that
      difference; rounding is monotone, and the difference of two clock
      readings that lie a cooldown apart is a float, so the comparison with
      the cooldown comes out the same whenever [last_alert_time] is 0 or a
      clock reading above the cooldown.
    - The object [self] is a record; the methods run in a small monad that
      threads [self], accumulates the observable calls and carries Python
      exceptions, with a [try_] combinator for [try: ... except Exception:].
    - Everything outside the process (the battery sensor, the clock, the MQTT
      client, [requests.post], Flask's [jsonify]) is read from a [World]
      record: one record per pass through the loop or per request. *)

From Stdlib Require Import QArith Lqa ZArith Bool List Lia Ascii String.
Import ListNotations.
Open Scope Q_scope.

(** ** Data *)

(** The four state names returned by [evaluate_state] and stored in
    [self.current_state]. *)
Inductive Severity : Type :=
| NORMAL
| WARNING_60
| CRITICAL_30
| CRITICAL_10.

Definition Severity_eqb (a b : Severity) : bool :=
  match a, b with
  | NORMAL, NORMAL => true
  | WARNING_60, WARNING_60 => true
  | CRITICAL_30, CRITICAL_30 => true
  | CRITICAL_10, CRITICAL_10 => true
  | _, _ => false
  end.

(** Urgency rank: [NORMAL < WARNING_60 < CRITICAL_30 < CRITICAL_10]. *)
Definition urgency (s : Severity) : nat :=
  match s with
  | NORMAL => 0
  | WARNING_60 => 1
  | CRITICAL_30 => 2
  | CRITICAL_10 => 3
  end.

(** Python's [x < y] on two finite floats. *)
Definition Qltb (x y : Q) : bool := negb (Qle_bool y x).

(** The dict [{"level": ..., "plugged": ...}] built by [get_battery_status]. *)
Record Status : Type := mkStatus {
  level : Q;
  plugged : bool
}.

(** The fields of [self] that the methods below read or write. *)
Record BatteryMonitor : Type := mkMonitor {
  check_interval : Q;
  mqtt_enabled : bool;
  mqtt_client : bool;            (* [self.mqtt_client] is not [None] *)
  webhook_url : option string;
  current_state : Severity;
  last_alert_time : Q
}.

(** The value [0] that [__init__] stores in [last_alert_time] and that the loop
    writes back on every change of state: "no alert sent yet". *)
Definition never : Q := 0.

(** [__init__]: [client_created] says whether [mqtt.Client()] returned. *)
Definition init (mqtt_on client_created : bool) (webhook : option string)
                (interval : Q) : BatteryMonitor :=
  {| check_interval := interval;
     mqtt_enabled := mqtt_on;
     mqtt_client := mqtt_on && client_created;
     webhook_url := webhook;
     current_state := NORMAL;
     last_alert_time := never |}.

Definition set_current_state (v : Severity) (self : BatteryMonitor) : BatteryMonitor :=
  {| check_interval := check_interval self;
     mqtt_enabled := mqtt_enabled self;
     mqtt_client := mqtt_client self;
     webhook_url := webhook_url self;
     current_state := v;
     last_alert_time := last_alert_time self |}.

Definition set_last_alert_time (v : Q) (self : BatteryMonitor) : BatteryMonitor :=
  {| check_interval := check_interval self;
     mqtt_enabled := mqtt_enabled self;
     mqtt_client := mqtt_client self;
     webhook_url := webhook_url self;
     current_state := current_state self;
     last_alert_time := v |}.

(** ** The outside world *)

Inductive SensorOutcome : Type :=
| SensorRaises                                        (* [psutil.sensors_battery()] raises *)
| SensorAbsent                                        (* it returns [None] *)
| SensorBattery (percent : Q) (power_plugged : bool). (* it returns a reading *)

Inductive PublishOutcome : Type :=
| PublishRaises
| PublishRc (rc : Z).

Inductive CallOutcome : Type :=
| CallRaises
| CallReturns.

Record World : Type := mkWorld {
  sensors_battery : SensorOutcome;
  time_time : Q;
  mqtt_publish : PublishOutcome;
  webhook_post : CallOutcome;
  telegram_post : CallOutcome;
  jsonify_status : CallOutcome
}.

(** ** Observable calls *)

(** The three Telegram texts, each carrying the level it is formatted with. *)
Inductive Message : Type :=
| Advertencia (lvl : Q)       (* "Advertencia: bateria al {level}%" *)
| BateriaCritica (lvl : Q)    (* "Bateria critica: {level}%" *)
| BateriaMuyBaja (lvl : Q).   (* "BATERIA MUY BAJA: {level}%" *)

Inductive LogLevel : Type := INFO | WARNING | ERROR | CRITICAL.

Inductive LogLine : Type :=
| LogNivel (lvl : Q) (plug : bool)
| LogCambioEstado (old new : Severity)
| LogTelegramEnviado (m : Message)
| LogErrorTelegram
| LogMqttFallo
| LogErrorMqtt
| LogErrorWebhook
| LogErrorBateria
| LogErrorLoop
| LogErrorEndpoint.

Inductive Event : Type :=
| EvMqttPublish (data : Status)
| EvWebhookPost (url : string) (data : Status)
| EvTelegramPost (text : Message)
| EvFutureAction (lvl : Q)
| EvLog (l : LogLevel) (line : LogLine)
| EvSleep (seconds : Q).

(** ** The monad: [self], the calls made so far, and exceptions *)

Inductive Outcome (A : Type) : Type :=
| Returned (a : A)
| Raised.
Arguments Returned {A} a.
Arguments Raised {A}.

Definition M (A : Type) : Type :=
  BatteryMonitor -> Outcome A * BatteryMonitor * list Event.

Definition ret {A} (a : A) : M A := fun self => (Returned a, self, []).

Definition raise {A} : M A := fun self => (Raised, self, []).

Definition bind {A B} (m : M A) (k : A -> M B) : M B :=
  fun self =>
    match m self with
    | (Returned a, self1, ev1) =>
        match k a self1 with
        | (r, self2, ev2) => (r, self2, ev1 ++ ev2)
        end
    | (Raised, self1, ev1) => (Raised, self1, ev1)
    end.

(** [try: body except Exception: handler] *)
Definition try_ {A} (body handler : M A) : M A :=
  fun self =>
    match body self with
    | (Returned a, self1, ev1) => (Returned a, self1, ev1)
    | (Raised, self1, ev1) =>
        match handler self1 with
        | (r, self2, ev2) => (r, self2, ev1 ++ ev2)
        end
    end.

Definition get_self : M BatteryMonitor := fun self => (Returned self, self, []).

Definition update (f : BatteryMonitor -> BatteryMonitor) : M unit :=
  fun self => (Returned tt, f self, []).

Definition emit (e : Event) : M unit := fun self => (Returned tt, self, [e]).

Definition when (b : bool) (m : M unit) : M unit := if b then m else ret tt.

Declare Scope monad_scope.
Delimit Scope monad_scope with monad.
Notation "x <- m ;; k" := (bind m (fun x => k))
  (at level 61, m at next level, right associativity) : monad_scope.
Notation "m ;; k" := (bind m (fun _ => k))
  (at level 61, right associativity) : monad_scope.
Open Scope monad_scope.

Definition result_of {A} (r : Outcome A * BatteryMonitor * list Event) : Outcome A :=
  fst (fst r).
Definition self_of {A} (r : Outcome A * BatteryMonitor * list Event) : BatteryMonitor :=
  snd (fst r).
Definition events_of {A} (r : Outcome A * BatteryMonitor * list Event) : list Event :=
  snd r.

(** Python's truth value of [self.webhook_url]: [None] and the empty string
    are false. *)
Definition truthy (url : option string) : option string :=
  match url with
  | Some (String c u) => Some (String c u)
  | _ => None
  end.

(** ** External calls *)

Definition logging (l : LogLevel) (line : LogLine) : M unit := emit (EvLog l line).

(** [time.sleep] raises [ValueError] on a negative length.  (It raises as
    well on a length too large for its C clock type, from 2^32 milliseconds
    on the narrowest build; see [sleep_limit].) *)
Definition time_sleep (seconds : Q) : M unit :=
  if Qltb seconds 0 then raise else emit (EvSleep seconds).

(** A call that is attempted (and so observed) and then returns or raises. *)
Definition attempt (e : Event) (o : CallOutcome) : M unit :=
  emit e ;;
  match o with
  | CallReturns => ret tt
  | CallRaises => raise
  end.

Definition client_publish (w : World) (data : Status) : M Z :=
  emit (EvMqttPublish data) ;;
  match mqtt_publish w with
  | PublishRc rc => ret rc
  | PublishRaises => raise
  end.

Definition psutil_sensors_battery (w : World) : M (option (Q * bool)) :=
  match sensors_battery w with
  | SensorRaises => raise
  | SensorAbsent => ret None
  | SensorBattery p b => ret (Some (p, b))
  end.

(** ** The methods *)

Definition send_telegram (w : World) (message : Message) : M unit :=
  try_
    (attempt (EvTelegramPost message) (telegram_post w) ;;
     logging INFO (LogTelegramEnviado message))
    (logging ERROR LogErrorTelegram).

Definition publish_mqtt (w : World) (data : Status) : M unit :=
  self <- get_self ;;
  when (mqtt_enabled self && mqtt_client self)
    (try_
       (rc <- client_publish w data ;;
        when (negb (rc =? 0)%Z) (logging WARNING LogMqttFallo))
       (logging ERROR LogErrorMqtt)).

Definition notify_webhook (w : World) (data : Status) : M unit :=
  self <- get_self ;;
  match truthy (webhook_url self) with
  | Some url =>
      try_ (attempt (EvWebhookPost url data) (webhook_post w))
           (logging ERROR LogErrorWebhook)
  | None => ret tt
  end.

Definition future_action (lvl : Q) : M unit := emit (EvFutureAction lvl).

Definition get_battery_status (w : World) : M (option Status) :=
  try_
    (battery <- psutil_sensors_battery w ;;
     match battery with
     | Some (percent, power_plugged) =>
         ret (Some {| level := percent; plugged := power_plugged |})
     | None => ret None
     end)
    (logging ERROR LogErrorBateria ;; ret None).

Definition evaluate_state (lvl : Q) : Severity :=
  if Qltb lvl 10 then CRITICAL_10
  else if Qltb lvl 30 then CRITICAL_30
  else if Qltb lvl 60 then WARNING_60
  else NORMAL.

(** One pass through the body of [while True:] in [monitor_loop]. *)
Definition loop_body (w : World) : M unit :=
  try_
    (status <- get_battery_status w ;;
     match status with
     | Some status =>
         let lvl := level status in
         let plug := plugged status in
         let new_state := evaluate_state lvl in
         let current_time := time_time w in
         logging INFO (LogNivel lvl plug) ;;
         publish_mqtt w status ;;
         notify_webhook w status ;;
         self <- get_self ;;
         when (negb (Severity_eqb new_state (current_state self)))
           (logging INFO (LogCambioEstado (current_state self) new_state) ;;
            update (set_current_state new_state) ;;
            update (set_last_alert_time 0)) ;;
         self <- get_self ;;
         match current_state self with
         | WARNING_60 =>
             when (Qeq_bool (last_alert_time self) 0)
               (send_telegram w (Advertencia lvl) ;;
                future_action lvl ;;
                update (set_last_alert_time current_time))
         | CRITICAL_30 =>
             when (Qltb 300 (current_time - last_alert_time self))
               (send_telegram w (BateriaCritica lvl) ;;
                future_action lvl ;;
                update (set_last_alert_time current_time))
         | CRITICAL_10 =>
             when (Qltb 60 (current_time - last_alert_time self))
               (send_telegram w (BateriaMuyBaja lvl) ;;
                future_action lvl ;;
                update (set_last_alert_time current_time))
         | NORMAL => update (set_last_alert_time 0)
         end ;;
         when (Qeq_bool lvl 100) (future_action lvl)
     | None => ret tt
     end ;;
     self <- get_self ;;
     time_sleep (check_interval self))
    (logging CRITICAL LogErrorLoop ;;
     time_sleep 5).

(** [monitor_loop] never leaves its [while True:]; a run is observed through
    its first passes, one [World] each. *)
Fixpoint monitor_loop (ws : list World) : M unit :=
  match ws with
  | [] => ret tt
  | w :: ws' => loop_body w ;; monitor_loop ws'
  end.

(** The handler of [GET /battery]. *)
Inductive Body : Type :=
| JsonStatus (data : Status)
| JsonError (msg : string).

Record Response : Type := mkResponse {
  status_code : Z;
  body : Body
}.

Definition jsonify (w : World) (data : Status) : M Body :=
  match jsonify_status w with
  | CallReturns => ret (JsonStatus data)
  | CallRaises => raise
  end.

Definition battery_route (w : World) : M Response :=
  try_
    (status <- get_battery_status w ;;
     match status with
     | Some status =>
         b <- jsonify w status ;;
         ret {| status_code := 200; body := b |}
     | None =>
         ret {| status_code := 500; body := JsonError "No battery detected" |}
     end)
    (logging ERROR LogErrorEndpoint ;;
     ret {| status_code := 500; body := JsonError "Internal error" |}).

(** ** The parts of a pass *)

(** [self.last_alert_time] once the change-of-state block has run. *)
Definition armed_time (self : BatteryMonitor) (lvl : Q) : Q :=
  if Severity_eqb (evaluate_state lvl) (current_state self)
  then last_alert_time self else never.

(** The guard of the branch taken for the reading's state. *)
Definition alert_due (self : BatteryMonitor) (lvl now : Q) : bool :=
  match evaluate_state lvl with
  | WARNING_60 => Qeq_bool (armed_time self lvl) 0
  | CRITICAL_30 => Qltb 300 (now - armed_time self lvl)
  | CRITICAL_10 => Qltb 60 (now - armed_time self lvl)
  | NORMAL => false
  end.

Definition alert_text (lvl : Q) : Message :=
  match evaluate_state lvl with
  | CRITICAL_30 => BateriaCritica lvl
  | CRITICAL_10 => BateriaMuyBaja lvl
  | _ => Advertencia lvl
  end.

Definition post_self (self : BatteryMonitor) (lvl now : Q) : BatteryMonitor :=
  {| check_interval := check_interval self;
     mqtt_enabled := mqtt_enabled self;
     mqtt_client := mqtt_client self;
     webhook_url := webhook_url self;
     current_state := evaluate_state lvl;
     last_alert_time :=
       match evaluate_state lvl with
       | NORMAL => never
       | _ => if alert_due self lvl now then now else armed_time self lvl
       end |}.

Definition mqtt_events (w : World) (self : BatteryMonitor) (data : Status) : list Event :=
  if mqtt_enabled self && mqtt_client self then
    EvMqttPublish data ::
    match mqtt_publish w with
    | PublishRaises => [EvLog ERROR LogErrorMqtt]
    | PublishRc rc => if (rc =? 0)%Z then [] else [EvLog WARNING LogMqttFallo]
    end
  else [].

Definition webhook_events (w : World) (self : BatteryMonitor) (data : Status) : list Event :=
  match truthy (webhook_url self) with
  | Some url =>
      EvWebhookPost url data ::
      match webhook_post w with
      | CallRaises => [EvLog ERROR LogErrorWebhook]
      | CallReturns => []
      end
  | None => []
  end.

Definition change_events (self : BatteryMonitor) (lvl : Q) : list Event :=
  if Severity_eqb (evaluate_state lvl) (current_state self) then []
  else [EvLog INFO (LogCambioEstado (current_state self) (evaluate_state lvl))].

Definition alert_events (w : World) (self : BatteryMonitor) (lvl now : Q) : list Event :=
  if alert_due self lvl now then
    [EvTelegramPost (alert_text lvl);
     match telegram_post w with
     | CallReturns => EvLog INFO (LogTelegramEnviado (alert_text lvl))
     | CallRaises => EvLog ERROR LogErrorTelegram
     end;
     EvFutureAction lvl]
  else [].

Definition full_events (lvl : Q) : list Event :=
  if Qeq_bool lvl 100 then [EvFutureAction lvl] else [].

(** The end of a pass: the ordinary sleep, or, with a negative
    [check_interval], the [except] branch of the loop. *)
Definition sleep_events (self : BatteryMonitor) : list Event :=
  if Qltb (check_interval self) 0
  then [EvLog CRITICAL LogErrorLoop; EvSleep 5]
  else [EvSleep (check_interval self)].

(** ** Observations on a run *)

Definition is_alert (e : Event) : bool :=
  match e with EvTelegramPost _ => true | _ => false end.

(** Number of chat alerts dispatched ([requests.post] to Telegram attempted). *)
Definition alerts (evs : list Event) : nat := List.length (filter is_alert evs).

Definition is_notifier_call (e : Event) : bool :=
  match e with
  | EvMqttPublish _ | EvWebhookPost _ _ | EvTelegramPost _ => true
  | _ => false
  end.

Definition notifier_calls (evs : list Event) : list Event := filter is_notifier_call evs.

Definition is_log (e : Event) : bool :=
  match e with EvLog _ _ => true | _ => false end.

(** Everything a run did except its log lines. *)
Definition calls (evs : list Event) : list Event := filter (fun e => negb (is_log e)) evs.

(** The arguments of the calls of [future_action], in order. *)
Definition hook_calls (evs : list Event) : list Q :=
  flat_map (fun e => match e with EvFutureAction l => [l] | _ => [] end) evs.

(** The state a pass classifies its reading into, when it has a reading. *)
Definition tier_read (w : World) : option Severity :=
  match sensors_battery w with
  | SensorBattery p _ => Some (evaluate_state p)
  | _ => None
  end.

(** An alert was dispatched and its [requests.post] returned. *)
Definition delivered (w : World) (evs : list Event) : Prop :=
  alerts evs = 1%nat /\ telegram_post w = CallReturns.

(** [NORMAL] keeps no alert time. *)
Definition normal_unarmed (self : BatteryMonitor) : Prop :=
  current_state self = NORMAL -> last_alert_time self == never.

(** Passes that all read [tier], none later than [t0 + span]. *)
Definition held (tier : Severity) (t0 span : Q) (ws : list World) : Prop :=
  Forall (fun w => tier_read w = Some tier /\ time_time w <= t0 + span) ws.

(** [held], with a pass at [t0 + span] itself: the state lasted [span] seconds. *)
Definition sustained (tier : Severity) (t0 span : Q) (ws : list World) : Prop :=
  held tier t0 span ws /\ Exists (fun w => time_time w == t0 + span) ws.

(** [CRITICAL_30] repeats after 300 seconds, [CRITICAL_10] after 60. *)
Inductive repeats_after : Severity -> Q -> Prop :=
| repeats_critical_30 : repeats_after CRITICAL_30 300
| repeats_critical_10 : repeats_after CRITICAL_10 60.

Definition with_mqtt_publish (o : PublishOutcome) (w : World) : World :=
  {| sensors_battery := sensors_battery w;
     time_time := time_time w;
     mqtt_publish := o;
     webhook_post := webhook_post w;
     telegram_post := telegram_post w;
     jsonify_status := jsonify_status w |}.

(** The three answers of the endpoint. *)
Definition ok_response (p : Q) (pl : bool) : Response :=
  {| status_code := 200; body := JsonStatus (mkStatus p pl) |}.

Definition no_battery_response : Response :=
  {| status_code := 500; body := JsonError "No battery detected" |}.

Definition internal_error_response : Response :=
  {| status_code := 500; body := JsonError "Internal error" |}.

(** Concrete passes and monitors used in the examples below. *)
Definition reading_at (p now : Q) : World :=
  {| sensors_battery := SensorBattery p false;
     time_time := now;
     mqtt_publish := PublishRc 0;
     webhook_post := CallReturns;
     telegram_post := CallReturns;
     jsonify_status := CallReturns |}.

Definition chat_down (p now : Q) : World :=
  {| sensors_battery := SensorBattery p false;
     time_time := now;
     mqtt_publish := PublishRc 0;
     webhook_post := CallReturns;
     telegram_post := CallRaises;
     jsonify_status := CallReturns |}.

Definition sensor_down (now : Q) : World :=
  {| sensors_battery := SensorRaises;
     time_time := now;
     mqtt_publish := PublishRc 0;
     webhook_post := CallReturns;
     telegram_post := CallReturns;
     jsonify_status := CallReturns |}.

Definition fresh : BatteryMonitor := init false false None 30.

Definition wired : BatteryMonitor :=
  init true true (Some "http://localhost:3000/battery-update"%string) 30.

(** ** Configuration helpers *)

(** [str.lower()] on the ASCII letters.  Strings are sequences of bytes here
    (UTF-8); a character outside ASCII is never lowered to a letter of
    "true" or "yes", so whether the result is one of the three accepted
    words is the same as in Python. *)
Definition lower_char (c : ascii) : ascii :=
  let n := nat_of_ascii c in
  if ((65 <=? n) && (n <=? 90))%nat then ascii_of_nat (n + 32) else c.

Fixpoint str_lower (s : string) : string :=
  match s with
  | EmptyString => EmptyString
  | String c s' => String (lower_char c) (str_lower s')
  end.

(** [str(value)] for what [os.getenv] returns: a string, or [None]. *)
Definition py_str (value : option string) : string :=
  match value with
  | Some s => s
  | None => "None"
  end.

Definition str_to_bool (value : option string) : bool :=
  existsb (String.eqb (str_lower (py_str value))) ["true"; "1"; "yes"]%string.

(** [c] is the ASCII capital of [c']. *)
Definition capital_of (c c' : ascii) : Prop :=
  (65 <= nat_of_ascii c <= 90)%nat /\ nat_of_ascii c' = (nat_of_ascii c + 32)%nat.

(** Two characters that differ at most in the case of an ASCII letter. *)
Definition same_letter (c c' : ascii) : Prop :=
  c = c' \/ capital_of c c' \/ capital_of c' c.

Inductive same_letters : string -> string -> Prop :=
| same_letters_nil : same_letters EmptyString EmptyString
| same_letters_cons c c' s s' :
    same_letter c c' -> same_letters s s' ->
    same_letters (String c s) (String c' s').

(** ** Start-up *)

(** The arguments of [__init__] that decide what it does. *)
Record InitArgs : Type := mkInitArgs {
  arg_mqtt_enabled : bool;
  arg_mqtt_broker : string;
  arg_mqtt_port : Z;
  arg_mqtt_user : option string;
  arg_mqtt_password : option string;
  arg_mqtt_tls : bool;
  arg_webhook_url : option string;
  arg_check_interval : Q
}.

(** How [app.run] ends: it returns when the server stops, raises an
    [Exception], or leaves through [SystemExit] (a [BaseException], like
    [KeyboardInterrupt]), which is what werkzeug does ([sys.exit(1)]) when it
    cannot bind the port. *)
Inductive AppOutcome : Type :=
| AppReturns
| AppRaises
| AppExits.

(** What the MQTT client library, the thread library and Flask answer while
    the service starts. *)
Record StartWorld : Type := mkStartWorld {
  mqtt_Client : CallOutcome;
  username_pw_set : CallOutcome;
  tls_set : CallOutcome;
  connect : CallOutcome;
  loop_start : CallOutcome;
  publish_started : CallOutcome;
  thread_start : CallOutcome;
  app_run : AppOutcome
}.

Inductive StartLog : Type :=
| LogIniciado
| LogMqttConectado
| LogErrorConectando
| LogErrorApi
| LogErrorServicio.

Inductive StartEvent : Type :=
| EvClient
| EvUsernamePwSet (user password : string)
| EvTlsSet
| EvConnect (broker : string) (port : Z) (keepalive : Z)
| EvLoopStart
| EvPublishStarted
| EvThreadStart
| EvAppRun
| EvStartLog (l : LogLevel) (line : StartLog).

(** The same monad as [M], over the start-up events. *)
Definition StartM (A : Type) : Type :=
  BatteryMonitor -> Outcome A * BatteryMonitor * list StartEvent.

Definition sret {A} (a : A) : StartM A := fun self => (Returned a, self, []).

Definition sbind {A B} (m : StartM A) (k : A -> StartM B) : StartM B :=
  fun self =>
    match m self with
    | (Returned a, self1, ev1) =>
        match k a self1 with
        | (r, self2, ev2) => (r, self2, ev1 ++ ev2)
        end
    | (Raised, self1, ev1) => (Raised, self1, ev1)
    end.

Definition stry {A} (body handler : StartM A) : StartM A :=
  fun self =>
    match body self with
    | (Returned a, self1, ev1) => (Returned a, self1, ev1)
    | (Raised, self1, ev1) =>
        match handler self1 with
        | (r, self2, ev2) => (r, self2, ev1 ++ ev2)
        end
    end.

Definition supdate (f : BatteryMonitor -> BatteryMonitor) : StartM unit :=
  fun self => (Returned tt, f self, []).

Definition swhen (b : bool) (m : StartM unit) : StartM unit := if b then m else sret tt.

(** An external call of the start-up: observed, then it returns or raises. *)
Definition scall (e : StartEvent) (o : CallOutcome) : StartM unit :=
  fun self =>
    match o with
    | CallReturns => (Returned tt, self, [e])
    | CallRaises => (Raised, self, [e])
    end.

Definition slog (l : LogLevel) (line : StartLog) : StartM unit :=
  fun self => (Returned tt, self, [EvStartLog l line]).

Declare Scope start_scope.
Delimit Scope start_scope with start.
Notation "m ;; k" := (sbind m (fun _ => k))
  (at level 61, right associativity) : start_scope.

Definition set_mqtt_client (v : bool) (self : BatteryMonitor) : BatteryMonitor :=
  {| check_interval := check_interval self;
     mqtt_enabled := mqtt_enabled self;
     mqtt_client := v;
     webhook_url := webhook_url self;
     current_state := current_state self;
     last_alert_time := last_alert_time self |}.

Definition is_truthy (v : option string) : bool :=
  match truthy v with
  | Some _ => true
  | None => false
  end.

(** The fields [__init__] assigns before it touches MQTT. *)
Definition blank (a : InitArgs) : BatteryMonitor :=
  {| check_interval := arg_check_interval a;
     mqtt_enabled := arg_mqtt_enabled a;
     mqtt_client := false;
     webhook_url := arg_webhook_url a;
     current_state := NORMAL;
     last_alert_time := 0 |}.

(** The body of [__init__] from the first log line on.  The creation of the
    Flask application and the registration of the route, which end it, touch
    none of the fields kept here and are left out. *)
Definition init_body (a : InitArgs) (sw : StartWorld) : StartM unit :=
  (slog INFO LogIniciado ;;
   swhen (arg_mqtt_enabled a)
     (stry
        (scall EvClient (mqtt_Client sw) ;;
         supdate (set_mqtt_client true) ;;
         swhen (is_truthy (arg_mqtt_user a) && is_truthy (arg_mqtt_password a))
           (scall (EvUsernamePwSet (py_str (arg_mqtt_user a))
                                   (py_str (arg_mqtt_password a)))
                  (username_pw_set sw)) ;;
         swhen (arg_mqtt_tls a) (scall EvTlsSet (tls_set sw)) ;;
         scall (EvConnect (arg_mqtt_broker a) (arg_mqtt_port a) 60) (connect sw) ;;
         scall EvLoopStart (loop_start sw) ;;
         scall EvPublishStarted (publish_started sw) ;;
         slog INFO LogMqttConectado)
        (slog ERROR LogErrorConectando)))%start.

(** [BatteryMonitor(...)]: the object built, and what building it did. *)
Definition BatteryMonitor_init (a : InitArgs) (sw : StartWorld)
  : Outcome unit * BatteryMonitor * list StartEvent :=
  init_body a sw (blank a).

(** [run_api] and [start] can also be left through [SystemExit], a
    [BaseException] that [except Exception] does not catch. *)
Inductive Ending (A : Type) : Type :=
| Ended (a : A)
| LeftByException
| LeftBySystemExit.
Arguments Ended {A} a.
Arguments LeftByException {A}.
Arguments LeftBySystemExit {A}.

Definition ServeM (A : Type) : Type :=
  BatteryMonitor -> Ending A * BatteryMonitor * list StartEvent.

Definition vbind {A B} (m : ServeM A) (k : A -> ServeM B) : ServeM B :=
  fun self =>
    match m self with
    | (Ended a, self1, ev1) =>
        match k a self1 with
        | (r, self2, ev2) => (r, self2, ev1 ++ ev2)
        end
    | (LeftByException, self1, ev1) => (LeftByException, self1, ev1)
    | (LeftBySystemExit, self1, ev1) => (LeftBySystemExit, self1, ev1)
    end.

(** [try: body except Exception: handler]: [SystemExit] passes through. *)
Definition vtry {A} (body handler : ServeM A) : ServeM A :=
  fun self =>
    match body self with
    | (Ended a, self1, ev1) => (Ended a, self1, ev1)
    | (LeftByException, self1, ev1) =>
        match handler self1 with
        | (r, self2, ev2) => (r, self2, ev1 ++ ev2)
        end
    | (LeftBySystemExit, self1, ev1) => (LeftBySystemExit, self1, ev1)
    end.

Definition vcall (e : StartEvent) (o : AppOutcome) : ServeM unit :=
  fun self =>
    match o with
    | AppReturns => (Ended tt, self, [e])
    | AppRaises => (LeftByException, self, [e])
    | AppExits => (LeftBySystemExit, self, [e])
    end.

Definition vlog (l : LogLevel) (line : StartLog) : ServeM unit :=
  fun self => (Ended tt, self, [EvStartLog l line]).

(** A call that can only return or raise an [Exception]. *)
Definition plain (o : CallOutcome) : AppOutcome :=
  match o with
  | CallReturns => AppReturns
  | CallRaises => AppRaises
  end.

Definition run_api (sw : StartWorld) : ServeM unit :=
  vtry (vcall EvAppRun (app_run sw))
       (vlog CRITICAL LogErrorApi).

(** [start]: the monitor loop is handed to a daemon thread; what that thread
    then does is [monitor_loop], and is not part of this call. *)
Definition start (sw : StartWorld) : ServeM unit :=
  vtry (vbind (vcall EvThreadStart (plain (thread_start sw))) (fun _ => run_api sw))
       (vlog CRITICAL LogErrorServicio).

Definition serve_result {A} (r : Ending A * BatteryMonitor * list StartEvent) : Ending A :=
  fst (fst r).
Definition serve_self {A} (r : Ending A * BatteryMonitor * list StartEvent)
  : BatteryMonitor := snd (fst r).
Definition serve_events {A} (r : Ending A * BatteryMonitor * list StartEvent)
  : list StartEvent := snd r.

(** ** More observations *)

Definition is_sleep (e : Event) : bool :=
  match e with EvSleep _ => true | _ => false end.

Definition is_telemetry (e : Event) : bool :=
  match e with EvMqttPublish _ | EvWebhookPost _ _ => true | _ => false end.

Definition is_critical_log (e : Event) : bool :=
  match e with EvLog CRITICAL _ => true | _ => false end.

Definition has_reading (w : World) : bool :=
  match sensors_battery w with
  | SensorBattery _ _ => true
  | _ => false
  end.

(** A reading below 60: the only passes that can alert. *)
Definition reads_low (w : World) : bool :=
  match sensors_battery w with
  | SensorBattery p _ => Qltb p 60
  | _ => false
  end.

(** The state of the last reading seen, starting from [cs]. *)
Definition last_tier (cs : Severity) (ws : list World) : Severity :=
  fold_left (fun c w => match tier_read w with Some t => t | None => c end) ws cs.

Definition start_result {A} (r : Outcome A * BatteryMonitor * list StartEvent) : Outcome A :=
  fst (fst r).
Definition start_self {A} (r : Outcome A * BatteryMonitor * list StartEvent)
  : BatteryMonitor := snd (fst r).
Definition start_events {A} (r : Outcome A * BatteryMonitor * list StartEvent)
  : list StartEvent := snd r.

(** A length in seconds that every build of [time.sleep] accepts: below 2^32
    milliseconds, the narrowest of its overflow limits. *)
Definition sleep_limit : Q := 4294967.

Definition returns (o : CallOutcome) : bool :=
  match o with
  | CallReturns => true
  | CallRaises => false
  end.

(** What a pass with the reading [data] sends as telemetry. *)
Definition telemetry (self : BatteryMonitor) (data : Status) : list Event :=
  (if mqtt_enabled self && mqtt_client self then [EvMqttPublish data] else [])
  ++ match truthy (webhook_url self) with
     | Some url => [EvWebhookPost url data]
     | None => []
     end.

(** The settings of a monitor, as opposed to its alert state. *)
Definition same_settings (a b : BatteryMonitor) : Prop :=
  check_interval a = check_interval b /\
  mqtt_enabled a = mqtt_enabled b /\
  mqtt_client a = mqtt_client b /\
  webhook_url a = webhook_url b.

(** Start-up worlds used in the examples below. *)
Definition all_up : StartWorld :=
  mkStartWorld CallReturns CallReturns CallReturns CallReturns
               CallReturns CallReturns CallReturns AppReturns.

Definition broker_down : StartWorld :=
  mkStartWorld CallReturns CallReturns CallReturns CallRaises
               CallReturns CallReturns CallReturns AppReturns.


Definition default_args : InitArgs :=
  {| arg_mqtt_enabled := true;
     arg_mqtt_broker := "localhost";
     arg_mqtt_port := 1883;
     arg_mqtt_user := Some "systemapp"%string;
     arg_mqtt_password := None;
     arg_mqtt_tls := false;
     arg_webhook_url := None;
     arg_check_interval := 30 |}.

(** ** What each method does *)

Ltac run_monad :=
  cbv beta iota zeta delta
    [psutil_sensors_battery future_action client_publish jsonify
     attempt logging time_sleep when bind try_ ret raise get_self update emit
     result_of self_of events_of fst snd
     level plugged check_interval mqtt_enabled mqtt_client webhook_url
     current_state last_alert_time set_current_state set_last_alert_time
     never andb negb].

Lemma publish_mqtt_run (w : World) (data : Status) (self : BatteryMonitor) :
  publish_mqtt w data self = (Returned tt, self, mqtt_events w self data).
Proof.
  unfold publish_mqtt, mqtt_events.
  destruct w as [sb now [|rc] wh tg js], self as [ci [|] [|] url cs lat];
    try reflexivity.
  run_monad. cbn [mqtt_publish]. destruct (rc =? 0)%Z; reflexivity.
Qed.

Lemma notify_webhook_run (w : World) (data : Status) (self : BatteryMonitor) :
  notify_webhook w data self = (Returned tt, self, webhook_events w self data).
Proof.
  unfold notify_webhook, webhook_events.
  destruct w as [sb now mq [|] tg js], self as [ci me mc [[|c u]|] cs lat];
    reflexivity.
Qed.

Lemma send_telegram_run (w : World) (m : Message) (self : BatteryMonitor) :
  send_telegram w m self =
  (Returned tt, self,
   [EvTelegramPost m;
    match telegram_post w with
    | CallReturns => EvLog INFO (LogTelegramEnviado m)
    | CallRaises => EvLog ERROR LogErrorTelegram
    end]).
Proof.
  unfold send_telegram.
  destruct w as [sb now mq wh [|] js]; reflexivity.
Qed.

Lemma get_battery_status_run (w : World) (self : BatteryMonitor) :
  get_battery_status w self =
  match sensors_battery w with
  | SensorBattery p pl => (Returned (Some (mkStatus p pl)), self, [])
  | SensorAbsent => (Returned None, self, [])
  | SensorRaises => (Returned None, self, [EvLog ERROR LogErrorBateria])
  end.
Proof.
  destruct w as [[| |p pl] now mq wh tg js]; reflexivity.
Qed.

Ltac step_methods :=
  repeat first
    [ rewrite publish_mqtt_run
    | rewrite notify_webhook_run
    | rewrite send_telegram_run
    | progress change (Qltb 5 0) with false
    | progress run_monad ].

(** ** What a pass does, in closed form *)

Lemma loop_body_reading (w : World) (self : BatteryMonitor) (p : Q) (pl : bool) :
  sensors_battery w = SensorBattery p pl ->
  loop_body w self =
  (Returned tt, post_self self p (time_time w),
   EvLog INFO (LogNivel p pl)
   :: mqtt_events w self (mkStatus p pl)
   ++ webhook_events w self (mkStatus p pl)
   ++ change_events self p
   ++ alert_events w self p (time_time w)
   ++ full_events p
   ++ sleep_events self).
Proof.
  intros Hs. unfold loop_body.
  unfold try_ at 1. unfold bind at 1.
  rewrite get_battery_status_run, Hs.
  cbn [level plugged].
  unfold post_self, change_events, alert_events, full_events, sleep_events,
    alert_due, armed_time, alert_text.
  destruct self as [ci me mc url cs lat].
  destruct (evaluate_state p) eqn:Ev, cs; cbn [Severity_eqb]; step_methods;
    repeat match goal with
           | |- context [if ?b then _ else _] => destruct b eqn:?; step_methods
           end;
    cbn [app]; rewrite <- ?app_assoc; reflexivity.
Qed.

Lemma loop_body_no_reading (w : World) (self : BatteryMonitor) :
  tier_read w = None ->
  loop_body w self =
  (Returned tt, self,
   match sensors_battery w with
   | SensorRaises => [EvLog ERROR LogErrorBateria]
   | _ => []
   end ++ sleep_events self).
Proof.
  unfold tier_read, loop_body. unfold try_ at 1. unfold bind at 1.
  rewrite get_battery_status_run. unfold sleep_events.
  destruct self as [ci me mc url cs lat].
  destruct (sensors_battery w); intros H; try discriminate; step_methods;
    destruct (Qltb ci 0); step_methods; reflexivity.
Qed.

(** ** Comparisons *)

Lemma Qltb_lt (x y : Q) : Qltb x y = true <-> x < y.
Proof.
  unfold Qltb. rewrite negb_true_iff, <- not_true_iff_false, Qle_bool_iff.
  split; [apply Qnot_le_lt | apply Qlt_not_le].
Qed.

Lemma Qltb_ge (x y : Q) : Qltb x y = false <-> y <= x.
Proof.
  unfold Qltb. rewrite negb_false_iff. apply Qle_bool_iff.
Qed.

Lemma Qeq_bool_false (x y : Q) : Qeq_bool x y = false <-> ~ x == y.
Proof.
  rewrite <- Qeq_bool_iff. symmetry. apply not_true_iff_false.
Qed.

Ltac reflect_Q :=
  repeat match goal with
         | H : Qltb _ _ = true |- _ => apply Qltb_lt in H
         | H : Qltb _ _ = false |- _ => apply Qltb_ge in H
         | H : Qeq_bool _ _ = true |- _ => apply Qeq_bool_iff in H
         | H : Qeq_bool _ _ = false |- _ => apply Qeq_bool_false in H
         end.

Lemma Severity_eqb_eq (a b : Severity) : Severity_eqb a b = true <-> a = b.
Proof. destruct a, b; cbn; split; congruence. Qed.

Lemma Severity_eqb_refl (a : Severity) : Severity_eqb a a = true.
Proof. now apply Severity_eqb_eq. Qed.

Lemma Severity_eqb_neq (a b : Severity) : Severity_eqb a b = false <-> a <> b.
Proof. destruct a, b; cbn; split; congruence. Qed.

(** ** Counting over a run *)

Lemma alerts_app (a b : list Event) : alerts (a ++ b) = (alerts a + alerts b)%nat.
Proof. unfold alerts. now rewrite filter_app, length_app. Qed.

Lemma hook_calls_app (a b : list Event) : hook_calls (a ++ b) = hook_calls a ++ hook_calls b.
Proof. unfold hook_calls. apply flat_map_app. Qed.

Lemma calls_app (a b : list Event) : calls (a ++ b) = calls a ++ calls b.
Proof. unfold calls. apply filter_app. Qed.

Lemma notifier_calls_app (a b : list Event) :
  notifier_calls (a ++ b) = notifier_calls a ++ notifier_calls b.
Proof. unfold notifier_calls. apply filter_app. Qed.

Lemma alerts_mqtt_events (w : World) (self : BatteryMonitor) (d : Status) :
  alerts (mqtt_events w self d) = 0%nat.
Proof.
  unfold mqtt_events.
  destruct (mqtt_enabled self && mqtt_client self); [|reflexivity].
  destruct (mqtt_publish w) as [|rc]; [reflexivity|].
  destruct (rc =? 0)%Z; reflexivity.
Qed.

Lemma alerts_webhook_events (w : World) (self : BatteryMonitor) (d : Status) :
  alerts (webhook_events w self d) = 0%nat.
Proof.
  unfold webhook_events.
  destruct (truthy (webhook_url self)); [|reflexivity].
  destruct (webhook_post w); reflexivity.
Qed.

Lemma alerts_sleep_events (self : BatteryMonitor) : alerts (sleep_events self) = 0%nat.
Proof. unfold sleep_events. destruct (Qltb _ _); reflexivity. Qed.

Lemma hook_calls_mqtt_events (w : World) (self : BatteryMonitor) (d : Status) :
  hook_calls (mqtt_events w self d) = [].
Proof.
  unfold mqtt_events.
  destruct (mqtt_enabled self && mqtt_client self); [|reflexivity].
  destruct (mqtt_publish w) as [|rc]; [reflexivity|].
  destruct (rc =? 0)%Z; reflexivity.
Qed.

Lemma hook_calls_webhook_events (w : World) (self : BatteryMonitor) (d : Status) :
  hook_calls (webhook_events w self d) = [].
Proof.
  unfold webhook_events.
  destruct (truthy (webhook_url self)); [|reflexivity].
  destruct (webhook_post w); reflexivity.
Qed.

Lemma hook_calls_sleep_events (self : BatteryMonitor) : hook_calls (sleep_events self) = [].
Proof. unfold sleep_events. destruct (Qltb _ _); reflexivity. Qed.

Lemma calls_mqtt_events (w : World) (self : BatteryMonitor) (d : Status) :
  calls (mqtt_events w self d) =
  if mqtt_enabled self && mqtt_client self then [EvMqttPublish d] else [].
Proof.
  unfold mqtt_events. destruct (mqtt_enabled self && mqtt_client self); [|reflexivity].
  destruct (mqtt_publish w) as [|rc]; [reflexivity|].
  destruct (rc =? 0)%Z; reflexivity.
Qed.

Lemma calls_webhook_events (w : World) (self : BatteryMonitor) (d : Status) :
  calls (webhook_events w self d) =
  match truthy (webhook_url self) with
  | Some url => [EvWebhookPost url d]
  | None => []
  end.
Proof.
  unfold webhook_events. destruct (truthy (webhook_url self)); [|reflexivity].
  destruct (webhook_post w); reflexivity.
Qed.

Lemma calls_alert_events (w : World) (self : BatteryMonitor) (p now : Q) :
  calls (alert_events w self p now) =
  if alert_due self p now then [EvTelegramPost (alert_text p); EvFutureAction p] else [].
Proof.
  unfold alert_events. destruct (alert_due self p now); [|reflexivity].
  destruct (telegram_post w); reflexivity.
Qed.

Create Rewrite HintDb counting.

#[local] Hint Rewrite
  alerts_app alerts_mqtt_events alerts_webhook_events alerts_sleep_events
  hook_calls_app hook_calls_mqtt_events hook_calls_webhook_events hook_calls_sleep_events
  calls_app calls_mqtt_events calls_webhook_events calls_alert_events : counting.

Ltac count_pass :=
  cbn [events_of snd];
  match goal with
  | |- context [?e :: mqtt_events ?w ?s ?d ++ ?l] =>
      change (e :: mqtt_events w s d ++ l) with ([e] ++ mqtt_events w s d ++ l)
  end;
  autorewrite with counting.

Lemma tier_read_reading (w : World) (tier : Severity) :
  tier_read w = Some tier ->
  exists p pl, sensors_battery w = SensorBattery p pl /\ evaluate_state p = tier.
Proof.
  unfold tier_read. destruct (sensors_battery w) as [| |p pl]; try discriminate.
  intros [= <-]. now exists p, pl.
Qed.

Lemma tier_read_none (w : World) :
  sensors_battery w = SensorRaises \/ sensors_battery w = SensorAbsent ->
  tier_read w = None.
Proof. unfold tier_read. intros [-> | ->]; reflexivity. Qed.

(** A pass with a reading dispatches one alert when the guard of its branch
    holds and none otherwise. *)
Lemma pass_alerts (w : World) (self : BatteryMonitor) (p : Q) (pl : bool) :
  sensors_battery w = SensorBattery p pl ->
  alerts (events_of (loop_body w self)) =
  if alert_due self p (time_time w) then 1%nat else 0%nat.
Proof.
  intros Hs. rewrite (loop_body_reading w self p pl Hs). count_pass.
  unfold change_events, alert_events, full_events.
  destruct (Severity_eqb _ _), (alert_due _ _ _), (Qeq_bool p 100), (telegram_post w);
    reflexivity.
Qed.

Lemma pass_self (w : World) (self : BatteryMonitor) (p : Q) (pl : bool) :
  sensors_battery w = SensorBattery p pl ->
  self_of (loop_body w self) = post_self self p (time_time w).
Proof. intros Hs. now rewrite (loop_body_reading w self p pl Hs). Qed.

Lemma pass_hook_calls (w : World) (self : BatteryMonitor) (p : Q) (pl : bool) :
  sensors_battery w = SensorBattery p pl ->
  hook_calls (events_of (loop_body w self)) =
  repeat p (alerts (events_of (loop_body w self)) + (if Qeq_bool p 100 then 1 else 0)).
Proof.
  intros Hs. rewrite (pass_alerts w self p pl Hs).
  rewrite (loop_body_reading w self p pl Hs). count_pass.
  unfold change_events, alert_events, full_events.
  destruct (Severity_eqb _ _), (alert_due _ _ _), (Qeq_bool p 100), (telegram_post w);
    reflexivity.
Qed.

(** The calls of a pass with a reading, log lines and the final sleep left
    out: they do not depend on what any of the transports answers. *)
Lemma pass_calls (w : World) (self : BatteryMonitor) (p : Q) (pl : bool) :
  sensors_battery w = SensorBattery p pl ->
  calls (events_of (loop_body w self)) =
  (if mqtt_enabled self && mqtt_client self then [EvMqttPublish (mkStatus p pl)] else [])
  ++ match truthy (webhook_url self) with
     | Some url => [EvWebhookPost url (mkStatus p pl)]
     | None => []
     end
  ++ (if alert_due self p (time_time w)
      then [EvTelegramPost (alert_text p); EvFutureAction p] else [])
  ++ (if Qeq_bool p 100 then [EvFutureAction p] else [])
  ++ calls (sleep_events self).
Proof.
  intros Hs. rewrite (loop_body_reading w self p pl Hs). count_pass.
  unfold change_events, full_events.
  destruct (Severity_eqb _ _), (Qeq_bool p 100); reflexivity.
Qed.

Lemma pass_alerts_bound (w : World) (self : BatteryMonitor) :
  alerts (events_of (loop_body w self)) = 0%nat \/
  alerts (events_of (loop_body w self)) = 1%nat.
Proof.
  destruct (sensors_battery w) as [| |p pl] eqn:Hs.
  - left. rewrite loop_body_no_reading by (apply tier_read_none; auto).
    cbn [events_of snd]. rewrite alerts_app, alerts_sleep_events, Hs. reflexivity.
  - left. rewrite loop_body_no_reading by (apply tier_read_none; auto).
    cbn [events_of snd]. rewrite alerts_app, alerts_sleep_events, Hs. reflexivity.
  - rewrite (pass_alerts w self p pl Hs). destruct (alert_due _ _ _); auto.
Qed.

(** What the transports answer changes neither [self] nor the calls made; it
    only picks log lines. *)
Lemma same_reading_same_pass (w w' : World) (self : BatteryMonitor) :
  sensors_battery w' = sensors_battery w ->
  time_time w' = time_time w ->
  self_of (loop_body w' self) = self_of (loop_body w self) /\
  calls (events_of (loop_body w' self)) = calls (events_of (loop_body w self)).
Proof.
  intros Hs Ht. destruct (sensors_battery w) as [| |p pl] eqn:Hw.
  - rewrite !loop_body_no_reading by (apply tier_read_none; auto).
    rewrite Hs, Hw. split; reflexivity.
  - rewrite !loop_body_no_reading by (apply tier_read_none; auto).
    rewrite Hs, Hw. split; reflexivity.
  - rewrite (pass_calls w self p pl Hw), (pass_calls w' self p pl Hs).
    rewrite (pass_self w self p pl Hw), (pass_self w' self p pl Hs), Ht.
    split; reflexivity.
Qed.

(** No pass raises: the loop goes on to the next one. *)
Lemma loop_body_returns (w : World) (self : BatteryMonitor) :
  result_of (loop_body w self) = Returned tt.
Proof.
  destruct (sensors_battery w) as [| |p pl] eqn:Hs.
  - rewrite loop_body_no_reading; [reflexivity | apply tier_read_none; auto].
  - rewrite loop_body_no_reading; [reflexivity | apply tier_read_none; auto].
  - now rewrite (loop_body_reading w self p pl Hs).
Qed.

Lemma monitor_loop_cons (w : World) (ws : list World) (self : BatteryMonitor) :
  monitor_loop (w :: ws) self =
  (result_of (monitor_loop ws (self_of (loop_body w self))),
   self_of (monitor_loop ws (self_of (loop_body w self))),
   events_of (loop_body w self)
   ++ events_of (monitor_loop ws (self_of (loop_body w self)))).
Proof.
  cbn [monitor_loop]. unfold bind.
  pose proof (loop_body_returns w self) as Hr.
  destruct (loop_body w self) as [[r s1] e1]. cbn in Hr. subst r.
  cbn [self_of events_of result_of fst snd].
  destruct (monitor_loop ws s1) as [[r2 s2] e2]. reflexivity.
Qed.

Lemma monitor_loop_returns (ws : list World) (self : BatteryMonitor) :
  result_of (monitor_loop ws self) = Returned tt.
Proof.
  revert self. induction ws as [|w ws IH]; intros self; [reflexivity|].
  rewrite monitor_loop_cons. cbn [result_of fst]. apply IH.
Qed.

Lemma alerts_monitor_loop_cons (w : World) (ws : list World) (self : BatteryMonitor) :
  alerts (events_of (monitor_loop (w :: ws) self)) =
  (alerts (events_of (loop_body w self))
   + alerts (events_of (monitor_loop ws (self_of (loop_body w self)))))%nat.
Proof. rewrite monitor_loop_cons. cbn [events_of snd]. apply alerts_app. Qed.

Lemma armed_time_same (self : BatteryMonitor) (p : Q) :
  evaluate_state p = current_state self ->
  armed_time self p = last_alert_time self.
Proof.
  intros E. unfold armed_time. now rewrite E, Severity_eqb_refl.
Qed.

Lemma armed_time_change (self : BatteryMonitor) (p : Q) :
  evaluate_state p <> current_state self ->
  armed_time self p = never.
Proof.
  intros E. unfold armed_time. apply Severity_eqb_neq in E. now rewrite E.
Qed.

(** ** [evaluate_state] *)

Lemma evaluate_state_cases (l : Q) :
  (l < 10 /\ evaluate_state l = CRITICAL_10) \/
  (10 <= l /\ l < 30 /\ evaluate_state l = CRITICAL_30) \/
  (30 <= l /\ l < 60 /\ evaluate_state l = WARNING_60) \/
  (60 <= l /\ evaluate_state l = NORMAL).
Proof.
  unfold evaluate_state.
  destruct (Qltb l 10) eqn:H10; [reflect_Q; now left |].
  destruct (Qltb l 30) eqn:H30; [reflect_Q; right; left; auto |].
  destruct (Qltb l 60) eqn:H60; reflect_Q; right; right; [left | right]; auto.
Qed.

(** C2. [evaluate_state] is a total function of the level with the bands
    level < 10: CRITICAL_10; 10 <= level < 30: CRITICAL_30;
    30 <= level < 60: WARNING_60; level >= 60: NORMAL.  Each state is returned
    on its band and nowhere else (so exactly one applies), urgency never
    increases when the level does, and the levels 30 and 60 themselves give
    WARNING_60 and NORMAL. *)
Theorem evaluate_state_bands (l l' : Q) :
  l <= l' ->
  (evaluate_state l = CRITICAL_10 <-> l < 10) /\
  (evaluate_state l = CRITICAL_30 <-> 10 <= l /\ l < 30) /\
  (evaluate_state l = WARNING_60 <-> 30 <= l /\ l < 60) /\
  (evaluate_state l = NORMAL <-> 60 <= l) /\
  (urgency (evaluate_state l') <= urgency (evaluate_state l))%nat /\
  evaluate_state 30 = WARNING_60 /\
  evaluate_state 60 = NORMAL.
Proof.
  intros Hle.
  destruct (evaluate_state_cases l) as [[? E]|[(? & ? & E)|[(? & ? & E)|[? E]]]];
    rewrite E;
    (repeat split; try reflexivity; try discriminate; try lra;
     try (intros; exfalso; lra);
     destruct (evaluate_state_cases l') as [[? E']|[(? & ? & E')|[(? & ? & E')|[? E']]]];
     rewrite E'; cbn; try lia; exfalso; lra).
Qed.

Lemma evaluate_state_bands_witness :
  20 <= 40 /\ urgency (evaluate_state 40) = 1%nat /\
  (evaluate_state 20 = CRITICAL_30 <-> 10 <= 20 /\ 20 < 30).
Proof.
  split; [lra | split; [reflexivity |]].
  apply (evaluate_state_bands 20 40). lra.
Defined.

(** ** The two repeating states *)

Section Repeating.

Variables (tier : Severity) (cd : Q).
Hypothesis Hrep : repeats_after tier cd.

Lemma critical_guard (self : BatteryMonitor) (p now : Q) :
  evaluate_state p = tier ->
  alert_due self p now = Qltb cd (now - armed_time self p).
Proof.
  intros Ev. unfold alert_due. rewrite Ev. destruct Hrep; reflexivity.
Qed.

Lemma critical_post (self : BatteryMonitor) (p now : Q) :
  evaluate_state p = tier ->
  current_state (post_self self p now) = tier /\
  last_alert_time (post_self self p now) =
  if Qltb cd (now - armed_time self p) then now else armed_time self p.
Proof.
  intros Ev. unfold post_self. cbn [current_state last_alert_time].
  rewrite (critical_guard self p now Ev), Ev.
  destruct Hrep; split; reflexivity.
Qed.

Lemma critical_rule (w : World) (self : BatteryMonitor) (p : Q) (pl : bool) :
  sensors_battery w = SensorBattery p pl ->
  evaluate_state p = tier ->
  (alerts (events_of (loop_body w self)) = 1%nat <->
   cd < time_time w - armed_time self p) /\
  (alerts (events_of (loop_body w self)) = 0%nat <->
   time_time w - armed_time self p <= cd).
Proof.
  intros Hs Ev.
  rewrite (pass_alerts w self p pl Hs), (critical_guard self p _ Ev).
  destruct (Qltb cd (time_time w - armed_time self p)) eqn:Hd; reflect_Q;
    repeat split; intros; try discriminate; try reflexivity; try assumption;
    exfalso; lra.
Qed.

(** While every pass comes within the cooldown of the last alert, nothing is
    sent and the alert time stays. *)
Lemma critical_quiet (ws : list World) :
  forall self : BatteryMonitor,
    current_state self = tier ->
    Forall (fun w => tier_read w = Some tier /\
                     time_time w - last_alert_time self <= cd) ws ->
    alerts (events_of (monitor_loop ws self)) = 0%nat.
Proof.
  induction ws as [|w ws IH]; intros self Hcs Hall; [reflexivity|].
  apply Forall_cons_iff in Hall as [[Ht Hw] Hrest].
  destruct (tier_read_reading w _ Ht) as (p & pl & Hs & Ev).
  rewrite alerts_monitor_loop_cons, (pass_alerts w self p pl Hs), (pass_self w self p pl Hs).
  destruct (critical_post self p (time_time w) Ev) as [Hcs' Hlat'].
  rewrite (critical_guard self p (time_time w) Ev) in *.
  rewrite armed_time_same in * by congruence.
  destruct (Qltb cd (time_time w - last_alert_time self)) eqn:Hd.
  - reflect_Q. exfalso. lra.
  - cbn. apply IH; [exact Hcs'|]. now rewrite Hlat'.
Qed.

Variable span : Q.
Hypothesis Hspan : span <= cd + cd.

(** After an alert at [last_alert_time self], passes that stay within
    [span <= 2 * cd] seconds of it send exactly one more alert if one of
    them comes later than the cooldown, and none otherwise. *)
Lemma critical_repeat (ws : list World) :
  forall self : BatteryMonitor,
    current_state self = tier ->
    held tier (last_alert_time self) span ws ->
    alerts (events_of (monitor_loop ws self)) =
    if existsb (fun w => Qltb (last_alert_time self + cd) (time_time w)) ws
    then 1%nat else 0%nat.
Proof.
  unfold held.
  induction ws as [|w ws IH]; intros self Hcs Hall; [reflexivity|].
  apply Forall_cons_iff in Hall as [[Ht Hw] Hrest].
  destruct (tier_read_reading w _ Ht) as (p & pl & Hs & Ev).
  rewrite alerts_monitor_loop_cons, (pass_alerts w self p pl Hs), (pass_self w self p pl Hs).
  destruct (critical_post self p (time_time w) Ev) as [Hcs' Hlat'].
  rewrite (critical_guard self p (time_time w) Ev) in *.
  rewrite armed_time_same in * by congruence.
  cbn [existsb].
  destruct (Qltb cd (time_time w - last_alert_time self)) eqn:Hd.
  - assert (Hlate : Qltb (last_alert_time self + cd) (time_time w) = true)
      by (reflect_Q; apply Qltb_lt; lra).
    rewrite Hlate. cbn [orb].
    rewrite critical_quiet; [reflexivity | exact Hcs' |].
    rewrite Hlat'. reflect_Q.
    eapply Forall_impl; [|exact Hrest].
    intros w' [Ht' Hw']. cbn beta in *. split; [exact Ht' | lra].
  - assert (Hearly : Qltb (last_alert_time self + cd) (time_time w) = false)
      by (reflect_Q; apply Qltb_ge; lra).
    rewrite Hearly. cbn [orb plus].
    rewrite (IH _ Hcs'); rewrite Hlat'; [reflexivity | exact Hrest].
Qed.

(** A fresh entry into a repeating state at a clock reading above its
    cooldown, followed by passes held in that state: two alerts if a pass
    comes after the cooldown, else one. *)
Lemma critical_entry_run
      (w : World) (self : BatteryMonitor) (p : Q) (pl : bool) (ws : list World) :
  sensors_battery w = SensorBattery p pl ->
  evaluate_state p = tier ->
  armed_time self p == never ->
  cd < time_time w ->
  held tier (time_time w) span ws ->
  alerts (events_of (monitor_loop (w :: ws) self)) =
  if existsb (fun w' => Qltb (time_time w + cd) (time_time w')) ws
  then 2%nat else 1%nat.
Proof.
  intros Hs Ev Harm Hclock Hheld.
  rewrite alerts_monitor_loop_cons, (pass_alerts w self p pl Hs), (pass_self w self p pl Hs).
  destruct (critical_post self p (time_time w) Ev) as [Hcs' Hlat'].
  rewrite (critical_guard self p (time_time w) Ev) in *.
  unfold never in Harm.
  assert (Hd : Qltb cd (time_time w - armed_time self p) = true)
    by (apply Qltb_lt; lra).
  rewrite Hd in *.
  rewrite (critical_repeat ws _ Hcs'); rewrite Hlat'; [|exact Hheld].
  destruct (existsb _ ws); reflexivity.
Qed.

Lemma existsb_late (t0 : Q) (ws : list World) :
  cd < span ->
  Exists (fun w => time_time w == t0 + span) ws ->
  existsb (fun w => Qltb (t0 + cd) (time_time w)) ws = true.
Proof.
  intros Hlt Hex. apply existsb_exists. apply Exists_exists in Hex as (w & Hin & Hw).
  exists w. split; [exact Hin|]. apply Qltb_lt. lra.
Qed.

Lemma existsb_early (t0 : Q) (ws : list World) :
  span <= cd ->
  held tier t0 span ws ->
  existsb (fun w => Qltb (t0 + cd) (time_time w)) ws = false.
Proof.
  intros Hle Hall. apply not_true_iff_false. intros Hex.
  apply existsb_exists in Hex as (w & Hin & Hw).
  unfold held in Hall. rewrite Forall_forall in Hall.
  destruct (Hall w Hin) as [_ Hb]. reflect_Q. lra.
Qed.

(** The whole rule of a repeating state, for a run that lasts [span]. *)
Lemma critical_alert_rule
      (w : World) (self : BatteryMonitor) (p : Q) (pl : bool) (ws : list World) :
  sensors_battery w = SensorBattery p pl ->
  evaluate_state p = tier ->
  cd < time_time w ->
  (alerts (events_of (loop_body w self)) = 1%nat <->
   armed_time self p == never \/ cd < time_time w - armed_time self p) /\
  (armed_time self p == never ->
   alerts (events_of (loop_body w self)) = 1%nat /\
   (cd < span -> sustained tier (time_time w) span ws ->
    alerts (events_of (monitor_loop (w :: ws) self)) = 2%nat) /\
   (span <= cd -> held tier (time_time w) span ws ->
    alerts (events_of (monitor_loop (w :: ws) self)) = 1%nat)).
Proof.
  intros Hs Ev Hclock.
  destruct (critical_rule w self p pl Hs Ev) as [H1 _].
  split.
  - rewrite H1. unfold never. split; [auto | intros [Hn | Hl]; lra].
  - intros Harm. split; [apply H1; unfold never in Harm; lra | split].
    + intros Hlt [Hheld Hex].
      rewrite (critical_entry_run w self p pl ws Hs Ev Harm Hclock Hheld).
      now rewrite existsb_late.
    + intros Hle Hheld.
      rewrite (critical_entry_run w self p pl ws Hs Ev Harm Hclock Hheld).
      now rewrite existsb_early.
Qed.

End Repeating.

(** C1. On a clock that reads more than 300, and from an alert time that
    is "never" or itself above 300 (every alert time a run on such a clock
    reaches; there Python's rounded difference and the exact one compare alike
    with 300): a pass that reads CRITICAL_30 dispatches an alert if and only if
    [last_alert_time], as left by the change-of-state block, is "never" or
    lies more than 300 seconds back.  A fresh entry therefore always alerts;
    CRITICAL_30 sustained for 301 seconds from a fresh entry gives exactly two
    alerts, and held for no more than 299 seconds exactly one. *)
Theorem critical30_alert_rule
        (w : World) (self : BatteryMonitor) (p : Q) (pl : bool) (ws : list World) :
  sensors_battery w = SensorBattery p pl ->
  evaluate_state p = CRITICAL_30 ->
  300 < time_time w ->
  last_alert_time self == never \/ 300 < last_alert_time self ->
  (alerts (events_of (loop_body w self)) = 1%nat <->
   armed_time self p == never \/ 300 < time_time w - armed_time self p) /\
  (alerts (events_of (loop_body w self)) = 0%nat <->
   ~ (armed_time self p == never \/ 300 < time_time w - armed_time self p)) /\
  (armed_time self p == never ->
   alerts (events_of (loop_body w self)) = 1%nat /\
   (sustained CRITICAL_30 (time_time w) 301 ws ->
    alerts (events_of (monitor_loop (w :: ws) self)) = 2%nat) /\
   (held CRITICAL_30 (time_time w) 299 ws ->
    alerts (events_of (monitor_loop (w :: ws) self)) = 1%nat)).
Proof.
  intros Hs Ev Hclock _.
  assert (Hlong : 301 <= 300 + 300) by lra.
  assert (Hshort : 299 <= 300 + 300) by lra.
  destruct (critical_alert_rule _ _ repeats_critical_30 301 Hlong w self p pl ws Hs Ev Hclock)
    as [Hiff Hrun].
  destruct (critical_alert_rule _ _ repeats_critical_30 299 Hshort w self p pl ws Hs Ev Hclock)
    as [_ Hrun'].
  split; [exact Hiff | split].
  - rewrite <- Hiff.
    destruct (pass_alerts_bound w self) as [H0 | H1]; rewrite ?H0, ?H1;
      split; intros H; try reflexivity; try discriminate;
      try (exfalso; apply H; reflexivity).
  - intros Harm.
    destruct (Hrun Harm) as (H1 & H2 & _). destruct (Hrun' Harm) as (_ & _ & H3).
    split; [exact H1 | split; [intros Hsus; apply H2; [lra | exact Hsus]
                             | intros Hheld; apply H3; [lra | exact Hheld]]].
Qed.

Lemma critical30_alert_rule_witness :
  sensors_battery (reading_at 20 1000) = SensorBattery 20 false /\
  evaluate_state 20 = CRITICAL_30 /\
  300 < time_time (reading_at 20 1000) /\
  (last_alert_time fresh == never \/ 300 < last_alert_time fresh) /\
  alerts (events_of (monitor_loop [reading_at 20 1000; reading_at 20 1301] fresh)) = 2%nat /\
  alerts (events_of (monitor_loop [reading_at 20 1000; reading_at 20 1299] fresh)) = 1%nat.
Proof.
  assert (Hc : 300 < time_time (reading_at 20 1000)) by reflexivity.
  assert (Hl : last_alert_time fresh == never \/ 300 < last_alert_time fresh)
    by (left; reflexivity).
  split; [reflexivity | split; [reflexivity | split; [exact Hc | split; [exact Hl | split]]]].
  - apply (critical30_alert_rule (reading_at 20 1000) fresh 20 false
             [reading_at 20 1301] eq_refl eq_refl Hc Hl).
    + reflexivity.
    + split.
      * repeat constructor. discriminate.
      * constructor. reflexivity.
  - apply (critical30_alert_rule (reading_at 20 1000) fresh 20 false
             [reading_at 20 1299] eq_refl eq_refl Hc Hl).
    + reflexivity.
    + repeat constructor. discriminate.
Defined.

(** Below that clock the stored 0 no longer acts as "never": with
    [time.time() = 100] a first CRITICAL_30 reading finds [last_alert_time] at 0
    and sends nothing, since [100 - 0 > 300] is false. *)
Lemma critical30_early_clock_misses_entry :
  sensors_battery (reading_at 20 100) = SensorBattery 20 false /\
  evaluate_state 20 = CRITICAL_30 /\
  armed_time fresh 20 == never /\
  alerts (events_of (loop_body (reading_at 20 100) fresh)) = 0%nat.
Proof.
  repeat split; reflexivity.
Qed.

(** C4. On a clock that reads more than 60, and from an alert time that
    is "never" or itself above 60 (every alert time a run on such a clock
    reaches; there Python's rounded difference and the exact one compare alike
    with 60): a pass that reads CRITICAL_10 dispatches an alert if and only if
    [last_alert_time], as left by the change-of-state block, is "never" or
    lies more than 60 seconds back.  A fresh entry therefore always alerts;
    CRITICAL_10 sustained for 61 seconds from a fresh entry gives exactly two
    alerts, and held for no more than 59 seconds exactly one. *)
Theorem critical10_alert_rule
        (w : World) (self : BatteryMonitor) (p : Q) (pl : bool) (ws : list World) :
  sensors_battery w = SensorBattery p pl ->
  evaluate_state p = CRITICAL_10 ->
  60 < time_time w ->
  last_alert_time self == never \/ 60 < last_alert_time self ->
  (alerts (events_of (loop_body w self)) = 1%nat <->
   armed_time self p == never \/ 60 < time_time w - armed_time self p) /\
  (alerts (events_of (loop_body w self)) = 0%nat <->
   ~ (armed_time self p == never \/ 60 < time_time w - armed_time self p)) /\
  (armed_time self p == never ->
   alerts (events_of (loop_body w self)) = 1%nat /\
   (sustained CRITICAL_10 (time_time w) 61 ws ->
    alerts (events_of (monitor_loop (w :: ws) self)) = 2%nat) /\
   (held CRITICAL_10 (time_time w) 59 ws ->
    alerts (events_of (monitor_loop (w :: ws) self)) = 1%nat)).
Proof.
  intros Hs Ev Hclock _.
  assert (Hlong : 61 <= 60 + 60) by lra.
  assert (Hshort : 59 <= 60 + 60) by lra.
  destruct (critical_alert_rule _ _ repeats_critical_10 61 Hlong w self p pl ws Hs Ev Hclock)
    as [Hiff Hrun].
  destruct (critical_alert_rule _ _ repeats_critical_10 59 Hshort w self p pl ws Hs Ev Hclock)
    as [_ Hrun'].
  split; [exact Hiff | split].
  - rewrite <- Hiff.
    destruct (pass_alerts_bound w self) as [H0 | H1]; rewrite ?H0, ?H1;
      split; intros H; try reflexivity; try discriminate;
      try (exfalso; apply H; reflexivity).
  - intros Harm.
    destruct (Hrun Harm) as (H1 & H2 & _). destruct (Hrun' Harm) as (_ & _ & H3).
    split; [exact H1 | split; [intros Hsus; apply H2; [lra | exact Hsus]
                             | intros Hheld; apply H3; [lra | exact Hheld]]].
Qed.

Lemma critical10_alert_rule_witness :
  sensors_battery (reading_at 5 1000) = SensorBattery 5 false /\
  evaluate_state 5 = CRITICAL_10 /\
  60 < time_time (reading_at 5 1000) /\
  (last_alert_time fresh == never \/ 60 < last_alert_time fresh) /\
  alerts (events_of (monitor_loop [reading_at 5 1000; reading_at 5 1061] fresh)) = 2%nat /\
  alerts (events_of (monitor_loop [reading_at 5 1000; reading_at 5 1059] fresh)) = 1%nat.
Proof.
  assert (Hc : 60 < time_time (reading_at 5 1000)) by reflexivity.
  assert (Hl : last_alert_time fresh == never \/ 60 < last_alert_time fresh)
    by (left; reflexivity).
  split; [reflexivity | split; [reflexivity | split; [exact Hc | split; [exact Hl | split]]]].
  - apply (critical10_alert_rule (reading_at 5 1000) fresh 5 false
             [reading_at 5 1061] eq_refl eq_refl Hc Hl).
    + reflexivity.
    + split.
      * repeat constructor. discriminate.
      * constructor. reflexivity.
  - apply (critical10_alert_rule (reading_at 5 1000) fresh 5 false
             [reading_at 5 1059] eq_refl eq_refl Hc Hl).
    + reflexivity.
    + repeat constructor. discriminate.
Defined.

(** Below that clock the stored 0 no longer acts as "never": with
    [time.time() = 30] a first CRITICAL_10 reading finds [last_alert_time] at 0
    and sends nothing, since [30 - 0 > 60] is false. *)
Lemma critical10_early_clock_misses_entry :
  sensors_battery (reading_at 5 30) = SensorBattery 5 false /\
  evaluate_state 5 = CRITICAL_10 /\
  armed_time fresh 5 == never /\
  alerts (events_of (loop_body (reading_at 5 30) fresh)) = 0%nat.
Proof.
  repeat split; reflexivity.
Qed.

(** ** WARNING_60 *)

Lemma warning_guard (self : BatteryMonitor) (p now : Q) :
  evaluate_state p = WARNING_60 ->
  alert_due self p now = Qeq_bool (armed_time self p) 0.
Proof. intros Ev. unfold alert_due. now rewrite Ev. Qed.

Lemma warning_post (self : BatteryMonitor) (p now : Q) :
  evaluate_state p = WARNING_60 ->
  current_state (post_self self p now) = WARNING_60 /\
  last_alert_time (post_self self p now) =
  if Qeq_bool (armed_time self p) 0 then now else armed_time self p.
Proof.
  intros Ev. unfold post_self. cbn [current_state last_alert_time].
  rewrite (warning_guard self p now Ev), Ev. split; reflexivity.
Qed.

(** Once [last_alert_time] holds a value other than 0, further WARNING_60
    readings send nothing, whatever the clock says. *)
Lemma warning_quiet (ws : list World) :
  forall self : BatteryMonitor,
    current_state self = WARNING_60 ->
    ~ last_alert_time self == never ->
    Forall (fun w => tier_read w = Some WARNING_60) ws ->
    alerts (events_of (monitor_loop ws self)) = 0%nat.
Proof.
  induction ws as [|w ws IH]; intros self Hcs Hlat Hall; [reflexivity|].
  apply Forall_cons_iff in Hall as [Ht Hrest].
  destruct (tier_read_reading w _ Ht) as (p & pl & Hs & Ev).
  rewrite alerts_monitor_loop_cons, (pass_alerts w self p pl Hs), (pass_self w self p pl Hs).
  destruct (warning_post self p (time_time w) Ev) as [Hcs' Hlat'].
  rewrite (warning_guard self p (time_time w) Ev) in *.
  rewrite armed_time_same in * by congruence.
  unfold never in Hlat.
  destruct (Qeq_bool (last_alert_time self) 0) eqn:Hd; reflect_Q; [contradiction|].
  cbn. apply IH; [exact Hcs' | now rewrite Hlat' | exact Hrest].
Qed.

(** C3. A pass that reads WARNING_60 alerts exactly when [last_alert_time],
    as left by the change-of-state block, is "never".  Entering WARNING_60
    from any other state therefore sends exactly one alert; and, the clock of
    that pass not reading exactly 0 (no running clock does), the consecutive
    WARNING_60 readings that follow send nothing more, at whatever times they
    come. *)
Theorem warning60_alerts_once
        (w : World) (self : BatteryMonitor) (p : Q) (pl : bool) (ws : list World) :
  sensors_battery w = SensorBattery p pl ->
  evaluate_state p = WARNING_60 ->
  (alerts (events_of (loop_body w self)) = 1%nat <-> armed_time self p == never) /\
  (alerts (events_of (loop_body w self)) = 0%nat <-> ~ armed_time self p == never) /\
  (current_state self <> WARNING_60 ->
   alerts (events_of (loop_body w self)) = 1%nat /\
   (~ time_time w == never ->
    Forall (fun w' => tier_read w' = Some WARNING_60) ws ->
    alerts (events_of (monitor_loop ws (self_of (loop_body w self)))) = 0%nat /\
    alerts (events_of (monitor_loop (w :: ws) self)) = 1%nat)).
Proof.
  intros Hs Ev.
  pose proof (pass_alerts w self p pl Hs) as Hn.
  rewrite (warning_guard self p (time_time w) Ev) in Hn.
  destruct (warning_post self p (time_time w) Ev) as [Hcs' Hlat'].
  unfold never.
  assert (Hiff1 : alerts (events_of (loop_body w self)) = 1%nat <-> armed_time self p == 0).
  { rewrite Hn. destruct (Qeq_bool (armed_time self p) 0) eqn:Hd; reflect_Q;
      split; intros; try discriminate; try reflexivity; try assumption; contradiction. }
  assert (Hiff0 : alerts (events_of (loop_body w self)) = 0%nat <-> ~ armed_time self p == 0).
  { rewrite Hn. destruct (Qeq_bool (armed_time self p) 0) eqn:Hd; reflect_Q;
      split; intros; try discriminate; try reflexivity; try assumption; contradiction. }
  split; [exact Hiff1 | split; [exact Hiff0|]].
  intros Hne.
  assert (Harm : armed_time self p = never)
    by (apply armed_time_change; congruence).
  assert (H1 : alerts (events_of (loop_body w self)) = 1%nat)
    by (apply Hiff1; rewrite Harm; reflexivity).
  split; [exact H1|].
  intros Hclock Hall.
  assert (Hq : alerts (events_of (monitor_loop ws (self_of (loop_body w self)))) = 0%nat).
  { rewrite (pass_self w self p pl Hs).
    apply warning_quiet; [exact Hcs' | | exact Hall].
    rewrite Hlat', Harm. cbn. exact Hclock. }
  split; [exact Hq|].
  rewrite alerts_monitor_loop_cons, H1, Hq. reflexivity.
Qed.

Lemma warning60_alerts_once_witness :
  sensors_battery (reading_at 50 1000) = SensorBattery 50 false /\
  evaluate_state 50 = WARNING_60 /\
  current_state fresh <> WARNING_60 /\
  ~ time_time (reading_at 50 1000) == never /\
  alerts (events_of (monitor_loop
                       [reading_at 50 1000; reading_at 45 1030; reading_at 40 99999]
                       fresh)) = 1%nat.
Proof.
  split; [reflexivity | split; [reflexivity | split; [discriminate | split]]].
  - discriminate.
  - apply (warning60_alerts_once (reading_at 50 1000) fresh 50 false
             [reading_at 45 1030; reading_at 40 99999] eq_refl eq_refl).
    + discriminate.
    + discriminate.
    + repeat constructor.
Defined.

(** At a clock reading of exactly 0 the time stored by the alert is the value
    for "never": the next WARNING_60 reading then alerts again. *)
Lemma warning60_zero_clock_realerts :
  tier_read (reading_at 50 0) = Some WARNING_60 /\
  tier_read (reading_at 50 30) = Some WARNING_60 /\
  current_state fresh <> WARNING_60 /\
  alerts (events_of (loop_body (reading_at 50 0) fresh)) = 1%nat /\
  alerts (events_of (loop_body (reading_at 50 30)
                               (self_of (loop_body (reading_at 50 0) fresh)))) = 1%nat /\
  alerts (events_of (monitor_loop [reading_at 50 0; reading_at 50 30] fresh)) = 2%nat.
Proof.
  repeat split; try reflexivity. discriminate.
Qed.

(** ** Changes of state *)

Lemma loop_body_forgets (w : World) (self : BatteryMonitor) (p : Q) (pl : bool) :
  sensors_battery w = SensorBattery p pl ->
  evaluate_state p <> current_state self ->
  self_of (loop_body w self) =
  self_of (loop_body w (set_last_alert_time never
                          (set_current_state (evaluate_state p) self))).
Proof.
  intros Hs Hne. rewrite !(pass_self w _ p pl Hs).
  apply Severity_eqb_neq in Hne.
  unfold post_self, alert_due, armed_time.
  cbn [set_last_alert_time set_current_state current_state last_alert_time
       check_interval mqtt_enabled mqtt_client webhook_url].
  rewrite Hne, Severity_eqb_refl. reflexivity.
Qed.

Lemma normal_unarmed_pass (w : World) (self : BatteryMonitor) :
  normal_unarmed self -> normal_unarmed (self_of (loop_body w self)).
Proof.
  intros Hinv. destruct (sensors_battery w) as [| |p pl] eqn:Hs.
  - rewrite loop_body_no_reading; [exact Hinv | apply tier_read_none; auto].
  - rewrite loop_body_no_reading; [exact Hinv | apply tier_read_none; auto].
  - rewrite (pass_self w self p pl Hs). unfold normal_unarmed, post_self.
    cbn [current_state last_alert_time]. intros ->. reflexivity.
Qed.

Lemma normal_unarmed_run (ws : list World) :
  forall self, normal_unarmed self -> normal_unarmed (self_of (monitor_loop ws self)).
Proof.
  induction ws as [|w ws IH]; intros self Hinv; [exact Hinv|].
  rewrite monitor_loop_cons. cbn [self_of fst snd].
  apply IH, normal_unarmed_pass, Hinv.
Qed.

(** C5. A pass whose reading classifies differently from
    [self.current_state] stores the new state and resets [last_alert_time] to
    "never" before the alert rule runs: the pass ends as it would have from
    the new state with no alert time, with [last_alert_time] "never" or, if
    the new state alerted, the current time.  After every pass with a reading
    [current_state] is the reading's state, and NORMAL has [last_alert_time]
    "never"; that property holds at start-up and is kept by every pass and
    every run.  So a WARNING_60 reading right after CRITICAL_10 (or any other
    state) alerts, whatever alert time CRITICAL_10 left. *)
Theorem change_of_state_rearms
        (w : World) (self : BatteryMonitor) (p : Q) (pl : bool)
        (w0 : World) (ws : list World) :
  sensors_battery w = SensorBattery p pl ->
  current_state (self_of (loop_body w self)) = evaluate_state p /\
  (evaluate_state p <> current_state self ->
   armed_time self p = never /\
   self_of (loop_body w self) =
   self_of (loop_body w (set_last_alert_time never
                           (set_current_state (evaluate_state p) self))) /\
   last_alert_time (self_of (loop_body w self)) =
   (if (alerts (events_of (loop_body w self)) =? 1)%nat then time_time w else never)) /\
  (current_state (self_of (loop_body w self)) = NORMAL ->
   last_alert_time (self_of (loop_body w self)) = never) /\
  normal_unarmed (init (mqtt_enabled self) (mqtt_client self) (webhook_url self)
                       (check_interval self)) /\
  (normal_unarmed self -> normal_unarmed (self_of (loop_body w0 self))) /\
  (normal_unarmed self -> normal_unarmed (self_of (monitor_loop ws self))) /\
  (current_state self <> WARNING_60 -> evaluate_state p = WARNING_60 ->
   alerts (events_of (loop_body w self)) = 1%nat) /\
  (current_state self = CRITICAL_10 -> evaluate_state p = WARNING_60 ->
   alerts (events_of (loop_body w self)) = 1%nat).
Proof.
  intros Hs.
  assert (Hre : current_state self <> WARNING_60 -> evaluate_state p = WARNING_60 ->
                alerts (events_of (loop_body w self)) = 1%nat).
  { intros Hne Ev. rewrite (pass_alerts w self p pl Hs), (warning_guard self p _ Ev).
    rewrite armed_time_change by congruence. reflexivity. }
  split; [now rewrite (pass_self w self p pl Hs)|].
  split.
  { intros Hne. split; [now apply armed_time_change|].
    split; [now apply loop_body_forgets with (pl := pl)|].
    rewrite (pass_alerts w self p pl Hs), (pass_self w self p pl Hs).
    unfold post_self, alert_due. cbn [last_alert_time].
    rewrite (armed_time_change self p Hne).
    destruct (evaluate_state p); try reflexivity;
      match goal with |- context [if ?b then _ else _] => destruct b end; reflexivity. }
  split.
  { rewrite (pass_self w self p pl Hs). unfold post_self.
    cbn [current_state last_alert_time]. intros ->. reflexivity. }
  split; [intros _; apply Qeq_refl|].
  split; [exact (normal_unarmed_pass w0 self)|].
  split; [exact (normal_unarmed_run ws self)|].
  split; [exact Hre|].
  intros Hc. apply Hre. rewrite Hc. discriminate.
Qed.

Lemma change_of_state_rearms_witness :
  sensors_battery (reading_at 45 1010) = SensorBattery 45 false /\
  current_state (self_of (loop_body (reading_at 5 1000) fresh)) = CRITICAL_10 /\
  last_alert_time (self_of (loop_body (reading_at 5 1000) fresh)) == 1000 /\
  evaluate_state 45 = WARNING_60 /\
  alerts (events_of (loop_body (reading_at 45 1010)
                               (self_of (loop_body (reading_at 5 1000) fresh)))) = 1%nat.
Proof.
  split; [reflexivity | split; [reflexivity | split; [reflexivity | split; [reflexivity|]]]].
  apply (change_of_state_rearms (reading_at 45 1010)
           (self_of (loop_body (reading_at 5 1000) fresh)) 45 false
           (reading_at 45 1010) [] eq_refl).
  - reflexivity.
  - reflexivity.
Defined.

(** ** When [last_alert_time] takes the current time *)

(** C6 (amended). [last_alert_time] takes the current time exactly on the
    passes that dispatch an alert, whether or not the chat transport delivers
    it: [send_telegram] catches its own failure and the assignment follows
    unconditionally.  A pass that dispatches nothing leaves [last_alert_time]
    as the change-of-state block left it (or at "never" in NORMAL), and a pass
    ends in the same [self] whatever the transport answers. *)
Theorem alert_time_follows_dispatch
        (w w' : World) (self : BatteryMonitor) (p : Q) (pl : bool) :
  sensors_battery w = SensorBattery p pl ->
  (alerts (events_of (loop_body w self)) = 1%nat ->
   last_alert_time (self_of (loop_body w self)) = time_time w) /\
  (alerts (events_of (loop_body w self)) = 0%nat ->
   last_alert_time (self_of (loop_body w self)) =
   match evaluate_state p with
   | NORMAL => never
   | _ => armed_time self p
   end) /\
  (alerts (events_of (loop_body w self)) = 0%nat \/
   alerts (events_of (loop_body w self)) = 1%nat) /\
  (sensors_battery w' = sensors_battery w -> time_time w' = time_time w ->
   self_of (loop_body w' self) = self_of (loop_body w self) /\
   alerts (events_of (loop_body w' self)) = alerts (events_of (loop_body w self))).
Proof.
  intros Hs.
  split; [|split; [|split]].
  - rewrite (pass_alerts w self p pl Hs), (pass_self w self p pl Hs).
    unfold post_self. cbn [last_alert_time].
    destruct (alert_due self p (time_time w)) eqn:Hd; [|discriminate].
    intros _. unfold alert_due in Hd. destruct (evaluate_state p); [discriminate| | |];
      reflexivity.
  - rewrite (pass_alerts w self p pl Hs), (pass_self w self p pl Hs).
    unfold post_self. cbn [last_alert_time].
    destruct (alert_due self p (time_time w)) eqn:Hd; [discriminate|].
    intros _. reflexivity.
  - apply pass_alerts_bound.
  - intros Hs' Ht.
    split; [apply same_reading_same_pass; assumption|].
    rewrite Hs in Hs'.
    rewrite (pass_alerts w' self p pl Hs'), (pass_alerts w self p pl Hs), Ht. reflexivity.
Qed.

Lemma alert_time_follows_dispatch_witness :
  sensors_battery (chat_down 50 1000) = SensorBattery 50 false /\
  alerts (events_of (loop_body (chat_down 50 1000) fresh)) = 1%nat /\
  last_alert_time (self_of (loop_body (chat_down 50 1000) fresh)) = 1000.
Proof.
  split; [reflexivity | split; [reflexivity|]].
  apply (alert_time_follows_dispatch (chat_down 50 1000) (chat_down 50 1000)
           fresh 50 false eq_refl).
  reflexivity.
Defined.

(** C6, as stated, fails when the chat transport raises: the alert is not
    delivered, and [last_alert_time] goes from "never" to the current time all
    the same. *)
Lemma undelivered_alert_counterexample :
  telegram_post (chat_down 50 1000) = CallRaises /\
  ~ delivered (chat_down 50 1000) (events_of (loop_body (chat_down 50 1000) fresh)) /\
  In (EvLog ERROR LogErrorTelegram) (events_of (loop_body (chat_down 50 1000) fresh)) /\
  last_alert_time fresh = never /\
  time_time (chat_down 50 1000) = 1000 /\
  last_alert_time (self_of (loop_body (chat_down 50 1000) fresh)) = 1000.
Proof.
  split; [reflexivity | split; [|split; [|split; [|split]]]]; try reflexivity.
  - intros [_ H]. discriminate H.
  - cbn. auto 10.
Qed.

(** ** A pass without a reading *)

Lemma no_reading_events (w : World) (self : BatteryMonitor) :
  tier_read w = None ->
  self_of (loop_body w self) = self /\
  notifier_calls (events_of (loop_body w self)) = [] /\
  hook_calls (events_of (loop_body w self)) = [] /\
  alerts (events_of (loop_body w self)) = 0%nat /\
  calls (events_of (loop_body w self)) = calls (sleep_events self).
Proof.
  intros Hn. rewrite (loop_body_no_reading w self Hn).
  cbn [self_of events_of fst snd].
  rewrite notifier_calls_app, hook_calls_app, alerts_app, calls_app.
  rewrite alerts_sleep_events, hook_calls_sleep_events.
  unfold sleep_events.
  destruct (sensors_battery w), (Qltb (check_interval self) 0); repeat split.
Qed.

(** C7. When the sensor read raises or finds no battery, the pass leaves
    [self] as it was ([current_state] and [last_alert_time] included), makes
    no MQTT, webhook or Telegram call and no call of the hook, and returns
    normally, after the ordinary [check_interval] sleep when that interval is
    not negative; the loop carries on with the next pass from the same
    [self]. *)
Theorem sensor_failure_skips_pass (w : World) (self : BatteryMonitor) (ws : list World) :
  sensors_battery w = SensorRaises \/ sensors_battery w = SensorAbsent ->
  self_of (loop_body w self) = self /\
  current_state (self_of (loop_body w self)) = current_state self /\
  last_alert_time (self_of (loop_body w self)) = last_alert_time self /\
  notifier_calls (events_of (loop_body w self)) = [] /\
  alerts (events_of (loop_body w self)) = 0%nat /\
  hook_calls (events_of (loop_body w self)) = [] /\
  (0 <= check_interval self ->
   calls (events_of (loop_body w self)) = [EvSleep (check_interval self)]) /\
  result_of (loop_body w self) = Returned tt /\
  result_of (monitor_loop (w :: ws) self) = Returned tt /\
  self_of (monitor_loop (w :: ws) self) = self_of (monitor_loop ws self) /\
  events_of (monitor_loop (w :: ws) self) =
  events_of (loop_body w self) ++ events_of (monitor_loop ws self).
Proof.
  intros Hs. apply tier_read_none in Hs.
  destruct (no_reading_events w self Hs) as (Hself & Hnot & Hhook & Hal & Hcalls).
  rewrite monitor_loop_cons, monitor_loop_returns, loop_body_returns, Hself.
  cbn [self_of result_of events_of fst snd].
  repeat (split; [first [reflexivity | assumption]|]).
  split; [|repeat split].
  intros Hci. rewrite Hcalls. unfold sleep_events.
  destruct (Qltb (check_interval self) 0) eqn:Hd; [|reflexivity].
  reflect_Q. exfalso. lra.
Qed.

Lemma sensor_failure_skips_pass_witness :
  (sensors_battery (sensor_down 1000) = SensorRaises \/
   sensors_battery (sensor_down 1000) = SensorAbsent) /\
  current_state (self_of (loop_body (reading_at 5 990) fresh)) = CRITICAL_10 /\
  self_of (loop_body (sensor_down 1000) (self_of (loop_body (reading_at 5 990) fresh))) =
  self_of (loop_body (reading_at 5 990) fresh).
Proof.
  split; [left; reflexivity | split; [reflexivity|]].
  apply (sensor_failure_skips_pass (sensor_down 1000)
           (self_of (loop_body (reading_at 5 990) fresh)) []).
  left. reflexivity.
Defined.

(** ** Failing notifiers *)

(** C8. With the MQTT publish raising, the pass still returns normally, posts
    to the webhook when one is configured and dispatches the chat alert the
    same pass would have dispatched with MQTT working; it ends in the same
    [self] and makes the same calls.  The same holds for whatever any of the
    three transports answers: two passes on the same reading at the same time
    differ in their log lines only. *)
Theorem mqtt_failure_is_isolated
        (w w' : World) (self : BatteryMonitor) (p : Q) (pl : bool) :
  sensors_battery w = SensorBattery p pl ->
  result_of (loop_body (with_mqtt_publish PublishRaises w) self) = Returned tt /\
  (mqtt_enabled self && mqtt_client self = true ->
   In (EvMqttPublish (mkStatus p pl))
      (events_of (loop_body (with_mqtt_publish PublishRaises w) self)) /\
   In (EvLog ERROR LogErrorMqtt)
      (events_of (loop_body (with_mqtt_publish PublishRaises w) self))) /\
  (forall url, truthy (webhook_url self) = Some url ->
   In (EvWebhookPost url (mkStatus p pl))
      (events_of (loop_body (with_mqtt_publish PublishRaises w) self))) /\
  (alerts (events_of (loop_body w self)) = 1%nat ->
   In (EvTelegramPost (alert_text p))
      (events_of (loop_body (with_mqtt_publish PublishRaises w) self))) /\
  alerts (events_of (loop_body (with_mqtt_publish PublishRaises w) self)) =
  alerts (events_of (loop_body w self)) /\
  self_of (loop_body (with_mqtt_publish PublishRaises w) self) =
  self_of (loop_body w self) /\
  calls (events_of (loop_body (with_mqtt_publish PublishRaises w) self)) =
  calls (events_of (loop_body w self)) /\
  (sensors_battery w' = sensors_battery w -> time_time w' = time_time w ->
   result_of (loop_body w' self) = Returned tt /\
   self_of (loop_body w' self) = self_of (loop_body w self) /\
   calls (events_of (loop_body w' self)) = calls (events_of (loop_body w self))).
Proof.
  intros Hs. set (w_fail := with_mqtt_publish PublishRaises w).
  assert (Hs' : sensors_battery w_fail = SensorBattery p pl) by exact Hs.
  assert (Ht : time_time w_fail = time_time w) by reflexivity.
  split; [apply loop_body_returns|].
  split.
  { intros Hm. rewrite (loop_body_reading w_fail self p pl Hs'). cbn [events_of snd].
    unfold mqtt_events. rewrite Hm. cbn [w_fail with_mqtt_publish mqtt_publish].
    split; [right; left; reflexivity | right; right; left; reflexivity]. }
  split.
  { intros url Hu. rewrite (loop_body_reading w_fail self p pl Hs'). cbn [events_of snd].
    right. apply in_or_app. right. apply in_or_app. left.
    unfold webhook_events. rewrite Hu. left. reflexivity. }
  split.
  { rewrite (pass_alerts w self p pl Hs).
    rewrite (loop_body_reading w_fail self p pl Hs'), Ht. cbn [events_of snd].
    unfold alert_events.
    destruct (alert_due self p (time_time w)); [intros _|discriminate].
    right. do 3 (apply in_or_app; right). apply in_or_app. left. left. reflexivity. }
  split.
  { now rewrite (pass_alerts w self p pl Hs), (pass_alerts w_fail self p pl Hs'), Ht. }
  split; [apply same_reading_same_pass; [now rewrite Hs', Hs | exact Ht]|].
  split; [apply same_reading_same_pass; [now rewrite Hs', Hs | exact Ht]|].
  intros Hw Hwt. split; [apply loop_body_returns|].
  apply same_reading_same_pass; assumption.
Qed.

Lemma mqtt_failure_is_isolated_witness :
  sensors_battery (reading_at 25 1000) = SensorBattery 25 false /\
  In (EvWebhookPost "http://localhost:3000/battery-update" (mkStatus 25 false))
     (events_of (loop_body (with_mqtt_publish PublishRaises (reading_at 25 1000)) wired)) /\
  In (EvTelegramPost (BateriaCritica 25))
     (events_of (loop_body (with_mqtt_publish PublishRaises (reading_at 25 1000)) wired)).
Proof.
  split; [reflexivity|].
  destruct (mqtt_failure_is_isolated (reading_at 25 1000) (reading_at 25 1000)
              wired 25 false eq_refl) as (_ & _ & Hw & Ha & _).
  split; [apply Hw; reflexivity | apply Ha; reflexivity].
Defined.

(** ** The endpoint *)

Lemma battery_route_run (w : World) (self : BatteryMonitor) :
  battery_route w self =
  match sensors_battery w with
  | SensorBattery p pl =>
      match jsonify_status w with
      | CallReturns => (Returned (ok_response p pl), self, [])
      | CallRaises =>
          (Returned internal_error_response, self, [EvLog ERROR LogErrorEndpoint])
      end
  | SensorAbsent => (Returned no_battery_response, self, [])
  | SensorRaises => (Returned no_battery_response, self, [EvLog ERROR LogErrorBateria])
  end.
Proof.
  destruct w as [[| |p pl] now mq wh tg [|]]; reflexivity.
Qed.

(** C9 (amended). GET /battery always answers.  It answers 200 with
    {level, plugged} exactly when the sensor gives a reading and the response
    is built without error; 500 "No battery detected" exactly when no battery
    is present or the sensor read raises ([get_battery_status] catches the
    exception and returns None); and 500 "Internal error" exactly when an
    exception is raised in the handler itself after a successful read. *)
Theorem battery_route_responses (w : World) (self : BatteryMonitor) :
  exists resp : Response,
    result_of (battery_route w self) = Returned resp /\
    self_of (battery_route w self) = self /\
    (forall p pl, resp = ok_response p pl <->
                  sensors_battery w = SensorBattery p pl /\ jsonify_status w = CallReturns) /\
    (status_code resp = 200%Z <->
     exists p pl, sensors_battery w = SensorBattery p pl /\ jsonify_status w = CallReturns) /\
    (resp = no_battery_response <->
     sensors_battery w = SensorAbsent \/ sensors_battery w = SensorRaises) /\
    (resp = internal_error_response <->
     (exists p pl, sensors_battery w = SensorBattery p pl) /\ jsonify_status w = CallRaises).
Proof.
  rewrite battery_route_run.
  destruct (sensors_battery w) as [| |p pl]; [| |destruct (jsonify_status w)];
    eexists; (split; [reflexivity|]); (split; [reflexivity|]).
  all: repeat split; intros;
    repeat match goal with
           | H : _ /\ _ |- _ => destruct H
           | H : _ \/ _ |- _ => destruct H
           | H : exists _, _ |- _ => destruct H
           | H : ok_response _ _ = ok_response _ _ |- _ => injection H as -> ->
           end;
    try discriminate; try congruence; eauto.
Qed.

(** C9, as stated, fails when the sensor read raises: the route answers 500
    "No battery detected", not "Internal error". *)
Lemma sensor_exception_response_counterexample :
  sensors_battery (sensor_down 1000) = SensorRaises /\
  result_of (battery_route (sensor_down 1000) fresh) = Returned no_battery_response /\
  result_of (battery_route (sensor_down 1000) fresh) <> Returned internal_error_response.
Proof.
  split; [reflexivity | split; [reflexivity | discriminate]].
Qed.

(** ** The hook *)

(** C10. On a pass with a reading, [future_action] is called with the
    reading's level once for the alert, if the pass dispatches one, and once
    more if the level equals 100, whatever the state and the alert time: its
    calls are the level repeated (alerts + [level == 100]) times, so twice if
    both happen.  Alerts are dispatched in WARNING_60, CRITICAL_30 and
    CRITICAL_10 only, and a pass without a reading does not call the hook. *)
Theorem future_action_calls (w : World) (self : BatteryMonitor) :
  match sensors_battery w with
  | SensorBattery p pl =>
      hook_calls (events_of (loop_body w self)) =
      repeat p (alerts (events_of (loop_body w self))
                + (if Qeq_bool p 100 then 1 else 0)) /\
      (alerts (events_of (loop_body w self)) = 0%nat \/
       alerts (events_of (loop_body w self)) = 1%nat /\
       (evaluate_state p = WARNING_60 \/ evaluate_state p = CRITICAL_30 \/
        evaluate_state p = CRITICAL_10))
  | _ => hook_calls (events_of (loop_body w self)) = []
  end.
Proof.
  destruct (sensors_battery w) as [| |p pl] eqn:Hs.
  - apply no_reading_events, tier_read_none; auto.
  - apply no_reading_events, tier_read_none; auto.
  - split; [exact (pass_hook_calls w self p pl Hs)|].
    rewrite (pass_alerts w self p pl Hs).
    unfold alert_due. destruct (evaluate_state p); auto;
      match goal with |- context [if ?b then _ else _] => destruct b end; auto.
Qed.

(** A reading of 100 is NORMAL: it calls the hook once and sends no alert, so
    no pass calls the hook twice. *)
Lemma full_charge_sends_no_alert (w : World) (self : BatteryMonitor) (p : Q) (pl : bool) :
  sensors_battery w = SensorBattery p pl ->
  p == 100 ->
  alerts (events_of (loop_body w self)) = 0%nat /\
  hook_calls (events_of (loop_body w self)) = [p].
Proof.
  intros Hs Hp.
  assert (Ev : evaluate_state p = NORMAL).
  { destruct (evaluate_state_cases p) as [[? E]|[(? & ? & E)|[(? & ? & E)|[? E]]]];
      try exact E; exfalso; lra. }
  assert (Ha : alerts (events_of (loop_body w self)) = 0%nat).
  { rewrite (pass_alerts w self p pl Hs). unfold alert_due. now rewrite Ev. }
  split; [exact Ha|].
  rewrite (pass_hook_calls w self p pl Hs), Ha.
  apply Qeq_bool_iff in Hp. rewrite Hp. reflexivity.
Qed.

(** ** Runs on concrete readings *)

(** Levels 75, 55, 25, 5, 65 one second apart: three alerts, on the entries
    into WARNING_60, CRITICAL_30 and CRITICAL_10, and the monitor is back in
    NORMAL with no alert time. *)
Example run_down_and_up :
  let ws := [reading_at 75 1000; reading_at 55 1001; reading_at 25 1002;
             reading_at 5 1003; reading_at 65 1004] in
  map tier_read ws =
  [Some NORMAL; Some WARNING_60; Some CRITICAL_30; Some CRITICAL_10; Some NORMAL] /\
  filter is_alert (events_of (monitor_loop ws fresh)) =
  [EvTelegramPost (Advertencia 55); EvTelegramPost (BateriaCritica 25);
   EvTelegramPost (BateriaMuyBaja 5)] /\
  self_of (monitor_loop ws fresh) = fresh.
Proof. repeat split. Qed.

(** The default 30-second polling: the second CRITICAL_30 alert comes on the
    first pass later than 300 seconds after the first, at 330. *)
Example critical30_polling :
  let ws := map (fun k => reading_at 20 (1000 + 30 * inject_Z (Z.of_nat k))) (seq 0 12) in
  alerts (events_of (monitor_loop (firstn 11 ws) fresh)) = 1%nat /\
  alerts (events_of (monitor_loop ws fresh)) = 2%nat.
Proof. split; vm_compute; reflexivity. Qed.

(** A negative [check_interval] makes [time.sleep] raise at the end of every
    pass; the [except] branch of the loop logs it and sleeps 5 seconds. *)
Example negative_interval_backs_off :
  events_of (loop_body (sensor_down 1000) (init false false None (-1))) =
  [EvLog ERROR LogErrorBateria; EvLog CRITICAL LogErrorLoop; EvSleep 5] /\
  result_of (loop_body (sensor_down 1000) (init false false None (-1))) = Returned tt.
Proof. split; reflexivity. Qed.

(** An empty webhook URL is false in Python: nothing is posted. *)
Example empty_webhook_url_posts_nothing :
  notifier_calls
    (events_of (loop_body (reading_at 75 1000) (init false false (Some EmptyString) 30))) = [].
Proof. reflexivity. Qed.

(** ** The notifiers and the sensor read, method by method *)

(** X1. [publish_mqtt] never raises and never changes [self].  It calls the
    client exactly once, with the data it was given, when MQTT is enabled and
    a client exists, and not at all otherwise; a non-zero return code costs
    one WARNING line and an exception one ERROR line. *)
Theorem publish_mqtt_contract (w : World) (data : Status) (self : BatteryMonitor) :
  result_of (publish_mqtt w data self) = Returned tt /\
  self_of (publish_mqtt w data self) = self /\
  calls (events_of (publish_mqtt w data self)) =
  (if mqtt_enabled self && mqtt_client self then [EvMqttPublish data] else []) /\
  (In (EvLog WARNING LogMqttFallo) (events_of (publish_mqtt w data self)) <->
   mqtt_enabled self && mqtt_client self = true /\
   exists rc, mqtt_publish w = PublishRc rc /\ rc <> 0%Z) /\
  (In (EvLog ERROR LogErrorMqtt) (events_of (publish_mqtt w data self)) <->
   mqtt_enabled self && mqtt_client self = true /\ mqtt_publish w = PublishRaises).
Proof.
  rewrite publish_mqtt_run. cbn [result_of self_of events_of fst snd].
  split; [reflexivity | split; [reflexivity | split; [apply calls_mqtt_events|]]].
  unfold mqtt_events.
  destruct (mqtt_enabled self && mqtt_client self).
  - destruct (mqtt_publish w) as [|rc].
    + split; split.
      * intros [? | [? | []]]; discriminate.
      * intros (_ & rc & H & _). discriminate.
      * intros _. split; reflexivity.
      * intros _. right. left. reflexivity.
    + destruct (Z.eqb_spec rc 0) as [-> | Hrc]; split; split.
      * intros [H | []]; discriminate.
      * intros (_ & rc & [= <-] & Hrc). contradiction.
      * intros [H | []]; discriminate.
      * intros [_ H]. discriminate.
      * intros _. split; [reflexivity|]. exists rc. split; [reflexivity | exact Hrc].
      * intros _. right. left. reflexivity.
      * intros [? | [? | []]]; discriminate.
      * intros [_ H]. discriminate.
  - split; split;
      [intros [] | intros [H _]; discriminate | intros [] | intros [H _]; discriminate].
Qed.

(** X2. [notify_webhook] never raises and never changes [self].  It posts
    exactly once, to the configured URL and with the data it was given, when
    [webhook_url] is a non-empty string, and not at all when it is [None] or
    empty; a failing post costs one ERROR line. *)
Theorem notify_webhook_contract (w : World) (data : Status) (self : BatteryMonitor) :
  result_of (notify_webhook w data self) = Returned tt /\
  self_of (notify_webhook w data self) = self /\
  (forall c url, webhook_url self = Some (String c url) ->
   calls (events_of (notify_webhook w data self)) =
   [EvWebhookPost (String c url) data]) /\
  (webhook_url self = None \/ webhook_url self = Some EmptyString ->
   events_of (notify_webhook w data self) = []) /\
  (In (EvLog ERROR LogErrorWebhook) (events_of (notify_webhook w data self)) <->
   is_truthy (webhook_url self) = true /\ webhook_post w = CallRaises).
Proof.
  rewrite notify_webhook_run. cbn [result_of self_of events_of fst snd].
  split; [reflexivity | split; [reflexivity|]].
  unfold webhook_events, is_truthy.
  split; [|split].
  - intros c url ->. cbn [truthy]. destruct (webhook_post w); reflexivity.
  - intros [-> | ->]; reflexivity.
  - destruct (truthy (webhook_url self)).
    + destruct (webhook_post w); split.
      * intros _. split; reflexivity.
      * intros _. right. left. reflexivity.
      * intros [H | []]. discriminate.
      * intros [_ H]. discriminate.
    + split; [intros [] | intros [H _]; discriminate].
Qed.

Lemma notify_webhook_contract_witness :
  webhook_url wired = Some "http://localhost:3000/battery-update"%string /\
  calls (events_of (notify_webhook (reading_at 75 1000) (mkStatus 75 false) wired)) =
  [EvWebhookPost "http://localhost:3000/battery-update" (mkStatus 75 false)].
Proof.
  split; [reflexivity|].
  apply (notify_webhook_contract (reading_at 75 1000) (mkStatus 75 false) wired).
  reflexivity.
Defined.

(** X3. [send_telegram] never raises and never changes [self]: it attempts
    the post exactly once and writes exactly one log line, the INFO line
    "Telegram enviado" when the post returned and the ERROR line when it
    raised. *)
Theorem send_telegram_contract (w : World) (m : Message) (self : BatteryMonitor) :
  result_of (send_telegram w m self) = Returned tt /\
  self_of (send_telegram w m self) = self /\
  calls (events_of (send_telegram w m self)) = [EvTelegramPost m] /\
  filter is_log (events_of (send_telegram w m self)) =
  [match telegram_post w with
   | CallReturns => EvLog INFO (LogTelegramEnviado m)
   | CallRaises => EvLog ERROR LogErrorTelegram
   end].
Proof.
  rewrite send_telegram_run. cbn [result_of self_of events_of fst snd].
  destruct (telegram_post w); repeat split.
Qed.

(** X4. [get_battery_status] never raises and never changes [self].  It
    returns the reading when the sensor gives one and [None] both when there
    is no battery and when the sensor call raises; only the raising call
    leaves a trace, one ERROR line. *)
Theorem get_battery_status_contract (w : World) (self : BatteryMonitor) :
  self_of (get_battery_status w self) = self /\
  calls (events_of (get_battery_status w self)) = [] /\
  (forall p pl, result_of (get_battery_status w self) = Returned (Some (mkStatus p pl)) <->
                sensors_battery w = SensorBattery p pl) /\
  (result_of (get_battery_status w self) = Returned None <->
   sensors_battery w = SensorAbsent \/ sensors_battery w = SensorRaises) /\
  (events_of (get_battery_status w self) = [EvLog ERROR LogErrorBateria] <->
   sensors_battery w = SensorRaises) /\
  (events_of (get_battery_status w self) = [] <->
   sensors_battery w <> SensorRaises).
Proof.
  rewrite get_battery_status_run.
  destruct (sensors_battery w) as [| |p pl]; cbn [result_of self_of events_of fst snd].
  all: split; [reflexivity | split; [reflexivity|]].
  all: split; [intros p0 pl0; split; intros H; try discriminate; congruence|].
  all: split; [split; [intros H|intros [H|H]]; try discriminate; auto|].
  all: split; split; intros H; try discriminate; try reflexivity; try congruence.
  all: exfalso; apply H; reflexivity.
Qed.

(** ** Passes and runs: what is sent, and when the loop sleeps *)

Ltac crunch_pass Hs :=
  rewrite ?(pass_alerts _ _ _ _ Hs);
  rewrite ?(loop_body_reading _ _ _ _ Hs);
  cbn [events_of self_of result_of fst snd];
  unfold mqtt_events, webhook_events, change_events, alert_events, full_events,
    sleep_events, telemetry;
  repeat match goal with
         | |- context [match ?x with _ => _ end] => destruct x eqn:?
         end.

Lemma pass_telemetry (w : World) (self : BatteryMonitor) (p : Q) (pl : bool) :
  sensors_battery w = SensorBattery p pl ->
  filter is_telemetry (events_of (loop_body w self)) = telemetry self (mkStatus p pl).
Proof. intros Hs. crunch_pass Hs; reflexivity. Qed.

Lemma pass_sleep (w : World) (self : BatteryMonitor) :
  filter is_sleep (events_of (loop_body w self)) =
  [EvSleep (if Qltb (check_interval self) 0 then 5 else check_interval self)] /\
  (Qltb (check_interval self) 0 = false ->
   filter is_critical_log (events_of (loop_body w self)) = []).
Proof.
  destruct (sensors_battery w) as [| |p pl] eqn:Hs.
  - rewrite loop_body_no_reading by (apply tier_read_none; auto). rewrite Hs.
    cbn [events_of snd]. unfold sleep_events.
    destruct (Qltb (check_interval self) 0); split; try reflexivity; discriminate.
  - rewrite loop_body_no_reading by (apply tier_read_none; auto). rewrite Hs.
    cbn [events_of snd]. unfold sleep_events.
    destruct (Qltb (check_interval self) 0); split; try reflexivity; discriminate.
  - split; [|intros Hci]; crunch_pass Hs; try reflexivity; discriminate.
Qed.

Lemma pass_settings (w : World) (self : BatteryMonitor) :
  same_settings (self_of (loop_body w self)) self.
Proof.
  destruct (sensors_battery w) as [| |p pl] eqn:Hs.
  - rewrite loop_body_no_reading by (apply tier_read_none; auto). repeat split.
  - rewrite loop_body_no_reading by (apply tier_read_none; auto). repeat split.
  - rewrite (pass_self w self p pl Hs). repeat split.
Qed.

Lemma run_settings (ws : list World) :
  forall self, same_settings (self_of (monitor_loop ws self)) self.
Proof.
  induction ws as [|w ws IH]; intros self; [repeat split|].
  rewrite monitor_loop_cons. cbn [self_of fst snd].
  destruct (IH (self_of (loop_body w self))) as (H1 & H2 & H3 & H4).
  destruct (pass_settings w self) as (G1 & G2 & G3 & G4).
  repeat split; congruence.
Qed.

Lemma telemetry_settings (a b : BatteryMonitor) (d : Status) :
  same_settings a b -> telemetry a d = telemetry b d.
Proof. intros (H1 & H2 & H3 & H4). unfold telemetry. now rewrite H2, H3, H4. Qed.

Lemma pass_tier (w : World) (self : BatteryMonitor) :
  current_state (self_of (loop_body w self)) =
  match tier_read w with
  | Some t => t
  | None => current_state self
  end.
Proof.
  unfold tier_read. destruct (sensors_battery w) as [| |p pl] eqn:Hs.
  - rewrite loop_body_no_reading by (apply tier_read_none; auto). reflexivity.
  - rewrite loop_body_no_reading by (apply tier_read_none; auto). reflexivity.
  - rewrite (pass_self w self p pl Hs). reflexivity.
Qed.

Lemma monitor_loop_app_eq (ws1 ws2 : list World) :
  forall self,
    monitor_loop (ws1 ++ ws2) self =
    (Returned tt,
     self_of (monitor_loop ws2 (self_of (monitor_loop ws1 self))),
     events_of (monitor_loop ws1 self)
     ++ events_of (monitor_loop ws2 (self_of (monitor_loop ws1 self)))).
Proof.
  induction ws1 as [|w ws1 IH]; intros self.
  - cbn [app monitor_loop ret self_of events_of fst snd].
    pose proof (monitor_loop_returns ws2 self) as Hr.
    destruct (monitor_loop ws2 self) as [[r s] e]. cbn in Hr. now subst r.
  - cbn [app]. rewrite !monitor_loop_cons, IH.
    cbn [result_of self_of events_of fst snd]. now rewrite app_assoc.
Qed.

(** X5. Every pass with a reading forwards that reading, whatever its state
    and whether or not an alert is due: one MQTT publish when MQTT is enabled
    with a client, then one webhook post when a URL is configured, both with
    {level, plugged} as read.  The chat alert, when the pass dispatches one,
    comes after them and carries the text of the reading's state with the
    reading's level. *)
Theorem pass_notifier_calls (w : World) (self : BatteryMonitor) (p : Q) (pl : bool) :
  sensors_battery w = SensorBattery p pl ->
  filter is_telemetry (events_of (loop_body w self)) = telemetry self (mkStatus p pl) /\
  notifier_calls (events_of (loop_body w self)) =
  telemetry self (mkStatus p pl)
  ++ (if (alerts (events_of (loop_body w self)) =? 1)%nat
      then [EvTelegramPost (alert_text p)] else []) /\
  (forall m, In (EvTelegramPost m) (events_of (loop_body w self)) ->
             (evaluate_state p = WARNING_60 /\ m = Advertencia p) \/
             (evaluate_state p = CRITICAL_30 /\ m = BateriaCritica p) \/
             (evaluate_state p = CRITICAL_10 /\ m = BateriaMuyBaja p)).
Proof.
  intros Hs. split; [exact (pass_telemetry w self p pl Hs)|]. split.
  - crunch_pass Hs; try reflexivity; discriminate.
  - intros m Hin.
    assert (Hm : In (EvTelegramPost m) (notifier_calls (events_of (loop_body w self))))
      by (apply filter_In; split; [exact Hin | reflexivity]).
    assert (Hd : alert_due self p (time_time w) = true /\ m = alert_text p).
    { revert Hm. crunch_pass Hs; cbn;
        intros H; repeat destruct H as [H | H]; try discriminate; try contradiction;
        split; congruence. }
    destruct Hd as [Hd ->]. unfold alert_due in Hd. unfold alert_text.
    destruct (evaluate_state p); try discriminate; auto.
Qed.

Lemma pass_notifier_calls_witness :
  sensors_battery (reading_at 25 1000) = SensorBattery 25 false /\
  notifier_calls (events_of (loop_body (reading_at 25 1000) wired)) =
  [EvMqttPublish (mkStatus 25 false);
   EvWebhookPost "http://localhost:3000/battery-update" (mkStatus 25 false);
   EvTelegramPost (BateriaCritica 25)].
Proof.
  split; [reflexivity|].
  destruct (pass_notifier_calls (reading_at 25 1000) wired 25 false eq_refl)
    as (_ & H & _).
  exact H.
Defined.

(** X6. Over a whole run the telemetry sent is exactly the readings, in
    order, each as often as the settings say (MQTT, then webhook): nothing is
    published for a pass without a reading, nothing at all when MQTT is off
    and no URL is set, and the settings never change along the way. *)
Theorem run_telemetry (ws : list World) (self : BatteryMonitor) :
  same_settings (self_of (monitor_loop ws self)) self /\
  filter is_telemetry (events_of (monitor_loop ws self)) =
  flat_map (fun w => match sensors_battery w with
                     | SensorBattery p pl => telemetry self (mkStatus p pl)
                     | _ => []
                     end) ws /\
  (mqtt_enabled self && mqtt_client self = false ->
   truthy (webhook_url self) = None ->
   filter is_telemetry (events_of (monitor_loop ws self)) = []).
Proof.
  split; [apply run_settings|].
  assert (Hrun : forall s, same_settings s self ->
            filter is_telemetry (events_of (monitor_loop ws s)) =
            flat_map (fun w => match sensors_battery w with
                               | SensorBattery p pl => telemetry self (mkStatus p pl)
                               | _ => []
                               end) ws).
  { induction ws as [|w ws IH]; intros s Hset; [reflexivity|].
    rewrite monitor_loop_cons. cbn [events_of snd flat_map]. rewrite filter_app.
    rewrite IH.
    - f_equal. destruct (sensors_battery w) as [| |p pl] eqn:Hs.
      + rewrite loop_body_no_reading by (apply tier_read_none; auto). rewrite Hs.
        cbn [events_of snd]. unfold sleep_events. destruct (Qltb _ _); reflexivity.
      + rewrite loop_body_no_reading by (apply tier_read_none; auto). rewrite Hs.
        cbn [events_of snd]. unfold sleep_events. destruct (Qltb _ _); reflexivity.
      + rewrite (pass_telemetry w s p pl Hs). now apply telemetry_settings.
    - destruct (pass_settings w s) as (G1 & G2 & G3 & G4).
      destruct Hset as (H1 & H2 & H3 & H4). repeat split; congruence. }
  split; [apply Hrun; repeat split|].
  intros Hm Hu. rewrite Hrun by (repeat split).
  unfold telemetry. rewrite Hm, Hu. clear Hrun.
  induction ws as [|w ws IH]; [reflexivity|]. cbn [flat_map].
  rewrite IH. destruct (sensors_battery w); reflexivity.
Qed.

Lemma run_telemetry_witness :
  mqtt_enabled fresh && mqtt_client fresh = false /\
  truthy (webhook_url fresh) = None /\
  filter is_telemetry
    (events_of (monitor_loop [reading_at 75 1000; reading_at 5 1030] fresh)) = [].
Proof.
  split; [reflexivity | split; [reflexivity|]].
  apply (run_telemetry [reading_at 75 1000; reading_at 5 1030] fresh); reflexivity.
Defined.

(** X7. With a [check_interval] that [time.sleep] accepts (from 0 up to
    [sleep_limit]) the loop sleeps exactly once per pass, [check_interval]
    seconds, whatever the sensor and the notifiers did, and no CRITICAL line
    is ever logged: no sensor or notifier failure reaches the loop's [except]
    branch and its 5-second back-off.  With a negative [check_interval] every
    pass ends in that branch and sleeps 5 seconds instead. *)
Theorem run_sleeps (ws : list World) (self : BatteryMonitor) :
  (0 <= check_interval self -> check_interval self <= sleep_limit ->
   filter is_sleep (events_of (monitor_loop ws self)) =
   repeat (EvSleep (check_interval self)) (List.length ws) /\
   filter is_critical_log (events_of (monitor_loop ws self)) = []) /\
  (check_interval self < 0 ->
   filter is_sleep (events_of (monitor_loop ws self)) =
   repeat (EvSleep 5) (List.length ws)).
Proof.
  assert (Hrun : forall s, check_interval s = check_interval self ->
            filter is_sleep (events_of (monitor_loop ws s)) =
            repeat (EvSleep (if Qltb (check_interval self) 0 then 5
                             else check_interval self)) (List.length ws) /\
            (Qltb (check_interval self) 0 = false ->
             filter is_critical_log (events_of (monitor_loop ws s)) = [])).
  { induction ws as [|w ws IH]; intros s Hci; [split; reflexivity|].
    rewrite monitor_loop_cons. cbn [events_of snd List.length repeat].
    rewrite !filter_app.
    destruct (pass_sleep w s) as [Hsl Hcr]. rewrite Hci in Hsl, Hcr.
    destruct (IH (self_of (loop_body w s))) as [IHs IHc].
    { destruct (pass_settings w s) as (G1 & _). congruence. }
    split.
    - rewrite Hsl, IHs. reflexivity.
    - intros Hd. rewrite (Hcr Hd), (IHc Hd). reflexivity. }
  destruct (Hrun self eq_refl) as [Hs Hc].
  split.
  - intros Hci _.
    assert (Hd : Qltb (check_interval self) 0 = false) by (apply Qltb_ge; exact Hci).
    rewrite Hs, Hd. split; [reflexivity | exact (Hc Hd)].
  - intros Hci.
    assert (Hd : Qltb (check_interval self) 0 = true) by (apply Qltb_lt; exact Hci).
    rewrite Hs, Hd. reflexivity.
Qed.

Lemma run_sleeps_witness :
  0 <= check_interval fresh /\ check_interval fresh <= sleep_limit /\
  filter is_sleep
    (events_of (monitor_loop [sensor_down 1000; chat_down 5 1030] fresh)) =
  [EvSleep 30; EvSleep 30] /\
  check_interval (init false false None (-1)) < 0 /\
  filter is_sleep
    (events_of (monitor_loop [sensor_down 1000; chat_down 5 1030]
                             (init false false None (-1)))) =
  [EvSleep 5; EvSleep 5].
Proof.
  split; [discriminate | split; [discriminate | split; [|split; [reflexivity|]]]].
  - apply (run_sleeps [sensor_down 1000; chat_down 5 1030] fresh); discriminate.
  - apply (run_sleeps [sensor_down 1000; chat_down 5 1030] (init false false None (-1))).
    reflexivity.
Defined.

(** ** Runs: how passes compose *)

(** X8. The loop never stops early: a run over [ws1 ++ ws2] is the run over
    [ws1] followed by the run over [ws2] from the [self] the first one left,
    with the calls of the two in sequence, whatever failed in between. *)
Theorem monitor_loop_composes (ws1 ws2 : list World) (self : BatteryMonitor) :
  result_of (monitor_loop (ws1 ++ ws2) self) = Returned tt /\
  self_of (monitor_loop (ws1 ++ ws2) self) =
  self_of (monitor_loop ws2 (self_of (monitor_loop ws1 self))) /\
  events_of (monitor_loop (ws1 ++ ws2) self) =
  events_of (monitor_loop ws1 self)
  ++ events_of (monitor_loop ws2 (self_of (monitor_loop ws1 self))) /\
  alerts (events_of (monitor_loop (ws1 ++ ws2) self)) =
  (alerts (events_of (monitor_loop ws1 self))
   + alerts (events_of (monitor_loop ws2 (self_of (monitor_loop ws1 self)))))%nat.
Proof.
  rewrite monitor_loop_app_eq. cbn [result_of self_of events_of fst snd].
  repeat split. apply alerts_app.
Qed.

Lemma run_tier (ws : list World) :
  forall self,
    current_state (self_of (monitor_loop ws self)) = last_tier (current_state self) ws.
Proof.
  unfold last_tier.
  induction ws as [|w ws IH]; intros self; [reflexivity|].
  rewrite monitor_loop_cons. cbn [self_of fst snd fold_left].
  rewrite IH, pass_tier. reflexivity.
Qed.

(** X9. After any run [current_state] is the state of the last reading the
    run saw, and the state it started with if no pass had a reading: a pass
    with a reading always overwrites it, a pass without one never does. *)
Theorem current_state_tracks_last_reading
        (ws : list World) (w : World) (self : BatteryMonitor) (t : Severity) :
  current_state (self_of (monitor_loop ws self)) = last_tier (current_state self) ws /\
  (Forall (fun w' => tier_read w' = None) ws ->
   current_state (self_of (monitor_loop ws self)) = current_state self) /\
  (tier_read w = Some t ->
   current_state (self_of (monitor_loop (ws ++ [w]) self)) = t).
Proof.
  split; [apply run_tier | split].
  - rewrite run_tier. unfold last_tier. revert self.
    induction ws as [|w' ws IH]; intros self Hall; [reflexivity|].
    apply Forall_cons_iff in Hall as [Hn Hall]. cbn [fold_left]. rewrite Hn.
    apply IH, Hall.
  - intros Ht. rewrite run_tier. unfold last_tier.
    rewrite fold_left_app. cbn [fold_left]. now rewrite Ht.
Qed.

Lemma current_state_tracks_last_reading_witness :
  tier_read (reading_at 45 1030) = Some WARNING_60 /\
  current_state
    (self_of (monitor_loop ([reading_at 5 1000; sensor_down 1010] ++ [reading_at 45 1030])
                           fresh)) = WARNING_60.
Proof.
  split; [reflexivity|].
  apply (current_state_tracks_last_reading [reading_at 5 1000; sensor_down 1010]
           (reading_at 45 1030) fresh WARNING_60).
  reflexivity.
Defined.

(** X10. Passes without a reading leave no mark: dropping them from a run
    changes neither the [self] it ends in, nor the notifier calls made, nor the
    calls of the hook. *)
Theorem failed_passes_leave_no_mark (ws : list World) (self : BatteryMonitor) :
  self_of (monitor_loop (filter has_reading ws) self) = self_of (monitor_loop ws self) /\
  notifier_calls (events_of (monitor_loop (filter has_reading ws) self)) =
  notifier_calls (events_of (monitor_loop ws self)) /\
  hook_calls (events_of (monitor_loop (filter has_reading ws) self)) =
  hook_calls (events_of (monitor_loop ws self)) /\
  alerts (events_of (monitor_loop (filter has_reading ws) self)) =
  alerts (events_of (monitor_loop ws self)).
Proof.
  revert self. induction ws as [|w ws IH]; intros self; [repeat split|].
  cbn [filter]. destruct (has_reading w) eqn:Hr.
  - rewrite !monitor_loop_cons. cbn [self_of events_of fst snd].
    rewrite !notifier_calls_app, !hook_calls_app, !alerts_app.
    destruct (IH (self_of (loop_body w self))) as (H1 & H2 & H3 & H4).
    rewrite H1, H2, H3, H4. repeat split.
  - assert (Hn : tier_read w = None).
    { unfold has_reading in Hr. unfold tier_read.
      destruct (sensors_battery w); [reflexivity | reflexivity | discriminate]. }
    destruct (no_reading_events w self Hn) as (Hself & Hnot & Hhook & Hal & _).
    rewrite (monitor_loop_cons w ws self), Hself.
    cbn [self_of events_of fst snd].
    rewrite notifier_calls_app, hook_calls_app, alerts_app, Hnot, Hhook, Hal.
    apply IH.
Qed.

Lemma pass_alerts_low (w : World) (self : BatteryMonitor) :
  (alerts (events_of (loop_body w self)) <= if reads_low w then 1 else 0)%nat.
Proof.
  unfold reads_low. destruct (sensors_battery w) as [| |p pl] eqn:Hs.
  - destruct (no_reading_events w self) as (_ & _ & _ & -> & _);
      [apply tier_read_none; auto | lia].
  - destruct (no_reading_events w self) as (_ & _ & _ & -> & _);
      [apply tier_read_none; auto | lia].
  - rewrite (pass_alerts w self p pl Hs). unfold alert_due.
    destruct (Qltb p 60) eqn:H60.
    + destruct (evaluate_state p);
        try match goal with |- context [if ?b then _ else _] => destruct b end; lia.
    + reflect_Q.
      destruct (evaluate_state_cases p) as [[? E]|[(? & ? & E)|[(? & ? & E)|[? E]]]];
        try (exfalso; lra). rewrite E. lia.
Qed.

(** X11. A run dispatches at most one alert for each pass whose reading is
    below 60, and none for the others: readings of 60 and above and passes
    without a reading never alert, so a run made of those alone is silent. *)
Theorem alerts_bounded_by_low_readings (ws : list World) (self : BatteryMonitor) :
  (alerts (events_of (monitor_loop ws self)) <= List.length (filter reads_low ws))%nat /\
  (Forall (fun w => reads_low w = false) ws ->
   alerts (events_of (monitor_loop ws self)) = 0%nat).
Proof.
  assert (Hle : forall s,
            (alerts (events_of (monitor_loop ws s)) <= List.length (filter reads_low ws))%nat).
  { induction ws as [|w ws IH]; intros s; [cbn; lia|].
    rewrite alerts_monitor_loop_cons. cbn [filter].
    pose proof (pass_alerts_low w s) as Hp.
    specialize (IH (self_of (loop_body w s))).
    destruct (reads_low w); cbn [List.length]; lia. }
  split; [apply Hle|].
  intros Hall. specialize (Hle self).
  assert (Hnil : filter reads_low ws = []).
  { clear Hle. induction ws as [|w ws IH]; [reflexivity|].
    apply Forall_cons_iff in Hall as [Hw Hall]. cbn [filter]. rewrite Hw. apply IH, Hall. }
  rewrite Hnil in Hle. cbn in Hle. lia.
Qed.

Lemma alerts_bounded_by_low_readings_witness :
  Forall (fun w => reads_low w = false) [reading_at 60 1000; sensor_down 1030] /\
  alerts (events_of (monitor_loop [reading_at 60 1000; sensor_down 1030]
                                  (self_of (loop_body (reading_at 5 900) fresh)))) = 0%nat.
Proof.
  split; [repeat constructor|].
  apply (alerts_bounded_by_low_readings [reading_at 60 1000; sensor_down 1030]
           (self_of (loop_body (reading_at 5 900) fresh))).
  repeat constructor.
Defined.

(** ** Runs: how often a state can alert *)

Lemma inject_succ (n : nat) :
  inject_Z (Z.of_nat (S n)) == 1 + inject_Z (Z.of_nat n).
Proof.
  rewrite Nat2Z.inj_succ, <- Z.add_1_l, inject_Z_plus. reflexivity.
Qed.

(** In a repeating state each alert moves [last_alert_time] forward by more
    than the cooldown, and never past the latest clock reading seen. *)
Lemma critical_spacing_inv (tier : Severity) (cd T : Q) :
  repeats_after tier cd ->
  forall (ws : list World) (self : BatteryMonitor),
    current_state self = tier ->
    Forall (fun w => tier_read w = Some tier /\ time_time w <= T) ws ->
    last_alert_time self <= T ->
    last_alert_time self
    + inject_Z (Z.of_nat (alerts (events_of (monitor_loop ws self)))) * cd
    <= last_alert_time (self_of (monitor_loop ws self)) /\
    last_alert_time (self_of (monitor_loop ws self)) <= T.
Proof.
  intros Hrep. induction ws as [|w ws IH]; intros self Hcs Hall Hlat.
  - cbn [monitor_loop ret events_of self_of fst snd alerts filter List.length].
    change (inject_Z (Z.of_nat 0)) with 0. split; lra.
  - apply Forall_cons_iff in Hall as [[Ht Hw] Hrest].
    destruct (tier_read_reading w _ Ht) as (p & pl & Hs & Ev).
    rewrite alerts_monitor_loop_cons, monitor_loop_cons.
    cbn [self_of fst snd].
    rewrite (pass_alerts w self p pl Hs), (pass_self w self p pl Hs).
    destruct (critical_post tier cd Hrep self p (time_time w) Ev) as [Hcs' Hlat'].
    rewrite (critical_guard tier cd Hrep self p (time_time w) Ev) in *.
    rewrite armed_time_same in * by congruence.
    destruct (Qltb cd (time_time w - last_alert_time self)) eqn:Hd; reflect_Q.
    + destruct (IH (post_self self p (time_time w)) Hcs' Hrest) as [IH1 IH2];
        [rewrite Hlat'; exact Hw|].
      rewrite Hlat' in IH1. split; [|exact IH2].
      change (1 + ?n)%nat with (S n). rewrite inject_succ. lra.
    + destruct (IH (post_self self p (time_time w)) Hcs' Hrest) as [IH1 IH2];
        [rewrite Hlat'; exact Hlat|].
      rewrite Hlat' in IH1. split; [|exact IH2].
      cbn [plus]. exact IH1.
Qed.

(** X12. Alerts of a repeating state are spaced by the cooldown however often
    the loop polls: while the readings stay in CRITICAL_30 (CRITICAL_10), the
    [n] alerts sent within [span] seconds of the last alert satisfy
    [n * 300 <= span] ([n * 60 <= span]). *)
Theorem critical_alert_spacing
        (tier : Severity) (cd span : Q) (ws : list World) (self : BatteryMonitor) :
  repeats_after tier cd ->
  current_state self = tier ->
  0 <= span ->
  held tier (last_alert_time self) span ws ->
  inject_Z (Z.of_nat (alerts (events_of (monitor_loop ws self)))) * cd <= span.
Proof.
  intros Hrep Hcs Hspan Hheld.
  destruct (critical_spacing_inv tier cd (last_alert_time self + span) Hrep
              ws self Hcs Hheld) as [H1 H2]; lra.
Qed.

Lemma critical_alert_spacing_witness :
  repeats_after CRITICAL_10 60 /\
  current_state (self_of (loop_body (reading_at 5 1000) fresh)) = CRITICAL_10 /\
  0 <= 125 /\
  inject_Z (Z.of_nat
    (alerts (events_of
       (monitor_loop [reading_at 5 1030; reading_at 5 1061; reading_at 5 1100;
                      reading_at 5 1125]
                     (self_of (loop_body (reading_at 5 1000) fresh)))))) * 60 <= 125.
Proof.
  split; [constructor | split; [reflexivity | split; [discriminate|]]].
  apply (critical_alert_spacing CRITICAL_10 60 125
           [reading_at 5 1030; reading_at 5 1061; reading_at 5 1100; reading_at 5 1125]
           (self_of (loop_body (reading_at 5 1000) fresh))).
  - constructor.
  - reflexivity.
  - discriminate.
  - repeat constructor; discriminate.
Defined.

(** X13. There is no hysteresis around 60: when the readings go back and
    forth between WARNING_60 and NORMAL, every return to WARNING_60 alerts
    again, whatever the clock reads, so [n] round trips send [n] alerts. *)
Theorem flapping_realerts (pairs : list (World * World)) (self : BatteryMonitor) :
  current_state self <> WARNING_60 ->
  Forall (fun ab => tier_read (fst ab) = Some WARNING_60 /\
                    tier_read (snd ab) = Some NORMAL) pairs ->
  alerts (events_of (monitor_loop (flat_map (fun ab => [fst ab; snd ab]) pairs) self)) =
  List.length pairs.
Proof.
  revert self. induction pairs as [|[a b] pairs IH]; intros self Hne Hall.
  - reflexivity.
  - apply Forall_cons_iff in Hall as [[Ha Hb] Hrest]. cbn [fst snd] in Ha, Hb.
    cbn [flat_map fst snd app List.length].
    destruct (tier_read_reading a _ Ha) as (pa & pla & Hsa & Eva).
    destruct (tier_read_reading b _ Hb) as (pb & plb & Hsb & Evb).
    set (s1 := self_of (loop_body a self)).
    set (s2 := self_of (loop_body b s1)).
    assert (H1 : alerts (events_of (loop_body a self)) = 1%nat).
    { rewrite (pass_alerts a self pa pla Hsa), (warning_guard self pa _ Eva).
      rewrite armed_time_change by congruence. reflexivity. }
    assert (H2 : alerts (events_of (loop_body b s1)) = 0%nat).
    { rewrite (pass_alerts b s1 pb plb Hsb). unfold alert_due. now rewrite Evb. }
    assert (Hs2 : current_state s2 = NORMAL).
    { unfold s2. rewrite pass_tier, Hb. reflexivity. }
    rewrite !alerts_monitor_loop_cons.
    fold s1. fold s2. rewrite H1, H2.
    rewrite (IH s2); [reflexivity | rewrite Hs2; discriminate | exact Hrest].
Qed.

Lemma flapping_realerts_witness :
  current_state fresh <> WARNING_60 /\
  alerts (events_of
            (monitor_loop [reading_at 59 0; reading_at 60 1;
                           reading_at 59 2; reading_at 60 3;
                           reading_at 59 4; reading_at 60 5] fresh)) = 3%nat.
Proof.
  split; [discriminate|].
  apply (flapping_realerts
           [(reading_at 59 0, reading_at 60 1); (reading_at 59 2, reading_at 60 3);
            (reading_at 59 4, reading_at 60 5)] fresh).
  - discriminate.
  - repeat constructor.
Defined.

(** ** The endpoint and the loop *)

(** X14. Serving GET /battery is read-only: it never changes [self] and makes
    no notifier call, no call of the hook and no sleep (at most it logs), so a
    request cannot disturb the alert state; and the status it serves for a
    reading is the very payload a pass forwards as telemetry for it. *)
Theorem battery_route_is_read_only
        (w : World) (self : BatteryMonitor) (p : Q) (pl : bool) :
  self_of (battery_route w self) = self /\
  calls (events_of (battery_route w self)) = [] /\
  (sensors_battery w = SensorBattery p pl ->
   jsonify_status w = CallReturns ->
   result_of (battery_route w self) =
   Returned {| status_code := 200; body := JsonStatus (mkStatus p pl) |} /\
   filter is_telemetry (events_of (loop_body w self)) = telemetry self (mkStatus p pl)).
Proof.
  rewrite battery_route_run.
  split; [|split].
  - destruct (sensors_battery w); [| |destruct (jsonify_status w)]; reflexivity.
  - destruct (sensors_battery w); [| |destruct (jsonify_status w)]; reflexivity.
  - intros Hs Hj. rewrite Hs, Hj. split; [reflexivity|].
    exact (pass_telemetry w self p pl Hs).
Qed.

Lemma battery_route_is_read_only_witness :
  sensors_battery (reading_at 42 1000) = SensorBattery 42 false /\
  jsonify_status (reading_at 42 1000) = CallReturns /\
  result_of (battery_route (reading_at 42 1000) wired) =
  Returned {| status_code := 200; body := JsonStatus (mkStatus 42 false) |}.
Proof.
  split; [reflexivity | split; [reflexivity|]].
  apply (battery_route_is_read_only (reading_at 42 1000) wired 42 false); reflexivity.
Defined.

(** ** [str_to_bool] *)

Lemma lower_char_same (c : ascii) : same_letter c (lower_char c).
Proof.
  unfold same_letter, capital_of, lower_char.
  destruct ((65 <=? nat_of_ascii c) && (nat_of_ascii c <=? 90))%nat eqn:Hu; [|now left].
  right. left. apply andb_true_iff in Hu as [H1 H2].
  apply Nat.leb_le in H1, H2. split; [lia|].
  apply nat_ascii_embedding. lia.
Qed.

Lemma same_letter_lower (c c' : ascii) :
  same_letter c c' -> lower_char c = lower_char c'.
Proof.
  assert (Hcap : forall a b, capital_of a b -> lower_char a = lower_char b).
  { intros a b [Hr Hb]. unfold lower_char. rewrite Hb.
    assert (H1 : ((65 <=? nat_of_ascii a) && (nat_of_ascii a <=? 90))%nat = true).
    { apply andb_true_iff. split; apply Nat.leb_le; lia. }
    assert (H2 : ((65 <=? nat_of_ascii a + 32) && (nat_of_ascii a + 32 <=? 90))%nat = false).
    { apply andb_false_iff. right. apply Nat.leb_gt. lia. }
    rewrite H1, H2, <- Hb. apply ascii_nat_embedding. }
  intros [-> | [H | H]]; [reflexivity | now apply Hcap | symmetry; now apply Hcap].
Qed.

Lemma str_lower_same (s : string) : same_letters s (str_lower s).
Proof.
  induction s as [|c s IH]; cbn [str_lower]; constructor; [apply lower_char_same | exact IH].
Qed.

Lemma same_letters_lower (s s' : string) :
  same_letters s s' -> str_lower s = str_lower s'.
Proof.
  induction 1 as [|c c' s s' Hc _ IH]; [reflexivity|].
  cbn [str_lower]. now rewrite (same_letter_lower c c' Hc), IH.
Qed.

Lemma str_lower_app (s t : string) :
  str_lower (s ++ t) = (str_lower s ++ str_lower t)%string.
Proof.
  induction s as [|c s IH]; [reflexivity|]. cbn [append str_lower]. now rewrite IH.
Qed.

Lemma str_to_bool_lower (v : option string) :
  str_to_bool v = true <->
  str_lower (py_str v) = "true"%string \/ str_lower (py_str v) = "1"%string \/
  str_lower (py_str v) = "yes"%string.
Proof.
  unfold str_to_bool. cbn [existsb]. rewrite !orb_true_iff, !String.eqb_eq.
  intuition discriminate.
Qed.

(** X15. [str_to_bool] accepts exactly the spellings of "true", "1" and "yes"
    in any mixture of upper and lower case, and gives the same answer for two
    strings that differ only in the case of their letters.  Everything else
    is False: an unset variable ([None]), the empty string, and an accepted
    word followed by a space or a newline, since nothing is stripped. *)
Theorem str_to_bool_accepts (s s' : string) :
  (str_to_bool (Some s) = true <->
   same_letters s "true" \/ same_letters s "1" \/ same_letters s "yes") /\
  (same_letters s s' -> str_to_bool (Some s') = str_to_bool (Some s)) /\
  str_to_bool None = false /\
  str_to_bool (Some EmptyString) = false /\
  str_to_bool (Some (s ++ " ")%string) = false /\
  str_to_bool (Some (s ++ String "010" EmptyString)%string) = false.
Proof.
  split; [|split; [|split; [|split; [|split]]]]; try reflexivity.
  - rewrite str_to_bool_lower. cbn [py_str]. split.
    + pose proof (str_lower_same s) as H.
      intros [E | [E | E]]; rewrite E in H; auto.
    + intros [H | [H | H]]; apply same_letters_lower in H; rewrite H; cbn; auto.
  - intros H. unfold str_to_bool. cbn [py_str].
    now rewrite (same_letters_lower s s' H).
  - apply not_true_iff_false. rewrite str_to_bool_lower. cbn [py_str].
    rewrite str_lower_app.
    destruct (str_lower s) as [|c1 [|c2 [|c3 [|c4 [|c5 r]]]]]; cbn;
      intros [H | [H | H]]; discriminate H.
  - apply not_true_iff_false. rewrite str_to_bool_lower. cbn [py_str].
    rewrite str_lower_app.
    destruct (str_lower s) as [|c1 [|c2 [|c3 [|c4 [|c5 r]]]]]; cbn;
      intros [H | [H | H]]; discriminate H.
Qed.

Lemma str_to_bool_accepts_witness :
  same_letters "YeS" "yes" /\ str_to_bool (Some "yes"%string) = str_to_bool (Some "YeS"%string) /\
  str_to_bool (Some "YeS"%string) = true.
Proof.
  assert (H : same_letters "YeS" "yes").
  { apply same_letters_cons; [right; left; split; [cbn; lia | reflexivity]|].
    apply same_letters_cons; [left; reflexivity|].
    apply same_letters_cons; [right; left; split; [cbn; lia | reflexivity]|].
    apply same_letters_nil. }
  split; [exact H | split].
  - apply (str_to_bool_accepts "YeS" "yes"). exact H.
  - reflexivity.
Defined.

(** ** Start-up *)

Ltac run_start :=
  cbv beta iota zeta delta
    [BatteryMonitor_init init_body start run_api
     vbind vtry vcall vlog plain serve_result serve_self serve_events
     sbind stry sret supdate swhen scall slog blank set_mqtt_client init returns
     start_result start_self start_events fst snd app andb
     arg_mqtt_enabled arg_mqtt_broker arg_mqtt_port arg_mqtt_user arg_mqtt_password
     arg_mqtt_tls arg_webhook_url arg_check_interval
     mqtt_Client username_pw_set tls_set connect loop_start publish_started
     thread_start app_run
     check_interval mqtt_enabled mqtt_client webhook_url current_state last_alert_time
     never].

Ltac start_solve :=
  cbn [In];
  repeat match goal with
         | |- _ /\ _ => split
         | |- _ <-> _ => split
         | |- ~ _ => intro
         | |- _ -> _ => intro
         | H : _ /\ _ |- _ => destruct H
         | H : _ \/ _ |- _ => destruct H
         | H : False |- _ => destruct H
         | H : ?a = ?a -> _ |- _ => specialize (H eq_refl)
         end;
  try discriminate; try congruence; auto 12;
  try (exfalso; match goal with H : ~ _ |- _ => apply H; auto 12 end).

Lemma pass_publishes (w : World) (self : BatteryMonitor) (p : Q) (pl : bool) :
  sensors_battery w = SensorBattery p pl ->
  In (EvMqttPublish (mkStatus p pl)) (events_of (loop_body w self)) <->
  mqtt_enabled self && mqtt_client self = true.
Proof.
  intros Hs.
  assert (Hin : In (EvMqttPublish (mkStatus p pl)) (events_of (loop_body w self)) <->
                In (EvMqttPublish (mkStatus p pl))
                   (filter is_telemetry (events_of (loop_body w self)))).
  { rewrite filter_In. cbn. tauto. }
  rewrite Hin, (pass_telemetry w self p pl Hs). unfold telemetry.
  destruct (mqtt_enabled self && mqtt_client self), (truthy (webhook_url self));
    cbn; intuition discriminate.
Qed.

(** X16. Building a monitor never raises, whatever the MQTT library does.
    The monitor starts in NORMAL with no alert time, and it holds an MQTT
    client as soon as MQTT is enabled and [mqtt.Client()] returned, even when
    credentials, TLS, the connection or the first publish failed afterwards:
    every later pass with a reading then still attempts its publish. *)
Theorem init_builds_monitor
        (a : InitArgs) (sw : StartWorld) (w : World) (p : Q) (pl : bool) :
  start_result (BatteryMonitor_init a sw) = Returned tt /\
  start_self (BatteryMonitor_init a sw) =
  init (arg_mqtt_enabled a) (returns (mqtt_Client sw))
       (arg_webhook_url a) (arg_check_interval a) /\
  current_state (start_self (BatteryMonitor_init a sw)) = NORMAL /\
  last_alert_time (start_self (BatteryMonitor_init a sw)) = never /\
  (sensors_battery w = SensorBattery p pl ->
   (In (EvMqttPublish (mkStatus p pl))
       (events_of (loop_body w (start_self (BatteryMonitor_init a sw)))) <->
    arg_mqtt_enabled a = true /\ mqtt_Client sw = CallReturns)).
Proof.
  assert (Hrun : start_result (BatteryMonitor_init a sw) = Returned tt /\
                 start_self (BatteryMonitor_init a sw) =
                 init (arg_mqtt_enabled a) (returns (mqtt_Client sw))
                      (arg_webhook_url a) (arg_check_interval a)).
  { destruct a as [en br po us pw tls wh ci], sw as [cl ups ts co ls ps th ar].
    run_start.
    destruct en; [|split; reflexivity].
    destruct cl; [split; reflexivity|].
    destruct (is_truthy us), (is_truthy pw), tls, ups, ts, co, ls, ps;
      split; reflexivity. }
  destruct Hrun as [Hr Hself].
  split; [exact Hr | split; [exact Hself|]].
  rewrite Hself. split; [reflexivity | split; [reflexivity|]].
  intros Hs. rewrite (pass_publishes w _ p pl Hs).
  cbn [init mqtt_enabled mqtt_client].
  destruct (arg_mqtt_enabled a), (mqtt_Client sw); cbn; intuition discriminate.
Qed.

Lemma init_builds_monitor_witness :
  sensors_battery (reading_at 75 1000) = SensorBattery 75 false /\
  connect broker_down = CallRaises /\
  In (EvMqttPublish (mkStatus 75 false))
     (events_of (loop_body (reading_at 75 1000)
                           (start_self (BatteryMonitor_init default_args broker_down)))).
Proof.
  split; [reflexivity | split; [reflexivity|]].
  destruct (init_builds_monitor default_args broker_down (reading_at 75 1000) 75 false)
    as (_ & _ & _ & _ & H).
  apply (H eq_refl). split; reflexivity.
Defined.

(** X17. What start-up does with MQTT.  With MQTT disabled nothing of it is
    touched.  Credentials are set only when both the user and the password
    are non-empty; the connection is attempted only once the client exists
    and the credential and TLS steps that were due have returned; "MQTT
    conectado" is logged only when connect, loop_start and the first publish
    all returned, and one ERROR line is logged otherwise. *)
Theorem init_mqtt_setup (a : InitArgs) (sw : StartWorld) :
  (arg_mqtt_enabled a = false ->
   start_events (BatteryMonitor_init a sw) = [EvStartLog INFO LogIniciado]) /\
  (In (EvUsernamePwSet (py_str (arg_mqtt_user a)) (py_str (arg_mqtt_password a)))
      (start_events (BatteryMonitor_init a sw)) <->
   arg_mqtt_enabled a = true /\ mqtt_Client sw = CallReturns /\
   is_truthy (arg_mqtt_user a) = true /\ is_truthy (arg_mqtt_password a) = true) /\
  (In (EvConnect (arg_mqtt_broker a) (arg_mqtt_port a) 60)
      (start_events (BatteryMonitor_init a sw)) <->
   arg_mqtt_enabled a = true /\ mqtt_Client sw = CallReturns /\
   (is_truthy (arg_mqtt_user a) = true -> is_truthy (arg_mqtt_password a) = true ->
    username_pw_set sw = CallReturns) /\
   (arg_mqtt_tls a = true -> tls_set sw = CallReturns)) /\
  (In (EvStartLog INFO LogMqttConectado) (start_events (BatteryMonitor_init a sw)) <->
   In (EvConnect (arg_mqtt_broker a) (arg_mqtt_port a) 60)
      (start_events (BatteryMonitor_init a sw)) /\
   connect sw = CallReturns /\ loop_start sw = CallReturns /\
   publish_started sw = CallReturns) /\
  (In (EvStartLog ERROR LogErrorConectando) (start_events (BatteryMonitor_init a sw)) <->
   arg_mqtt_enabled a = true /\
   ~ In (EvStartLog INFO LogMqttConectado) (start_events (BatteryMonitor_init a sw))).
Proof.
  destruct a as [en br po us pw tls wh ci], sw as [cl ups ts co ls ps th ar].
  run_start.
  destruct en; [|start_solve].
  destruct cl; [start_solve|].
  destruct (is_truthy us), (is_truthy pw), tls, ups, ts, co, ls, ps; start_solve.
Qed.

Lemma init_mqtt_setup_witness :
  arg_mqtt_enabled default_args = true /\
  is_truthy (arg_mqtt_password default_args) = false /\
  In (EvConnect "localhost" 1883 60) (start_events (BatteryMonitor_init default_args all_up)) /\
  ~ In (EvUsernamePwSet "systemapp" "None")
       (start_events (BatteryMonitor_init default_args all_up)).
Proof.
  destruct (init_mqtt_setup default_args all_up) as (_ & Hu & Hc & _).
  split; [reflexivity | split; [reflexivity | split]].
  - apply Hc. split; [reflexivity | split; [reflexivity | split]].
    + intros _ H. discriminate H.
    + intros H. discriminate H.
  - intros H. apply Hu in H. destruct H as (_ & _ & _ & H). discriminate H.
Defined.


